(** * Momentum icon generator: [scripts/create_icon_simple.py]

    A shallow embedding of the script and the properties its specification
    states about it.  The script paints a 1024x1024 vertical gradient,
    composites a flame overlay on it, writes ten resized PNG renditions into
    a staging directory, asks the platform icon compiler to bundle them and
    removes the staging directory when the compiler succeeded.

    Pillow and the operating system are outside the repository.  The Pillow
    primitives whose behaviour the script relies on pixel by pixel
    ([Image.new], a horizontal [ImageDraw.line], [convert]) are written out;
    polygon rasterisation, alpha compositing and Lanczos resampling are
    fields of a record [Pillow] the script is parameterised by, as are the
    programs started through [subprocess] (record [OS]). *)

From Stdlib Require Import ZArith QArith List Lia.
From stdpp Require Import base option list list_numbers strings gmap.

Open Scope Z_scope.

(** ** Rasters *)

Module Raster.

Definition RGB : Type := Z * Z * Z.
Definition RGBA : Type := Z * Z * Z * Z.

(** A Pillow image: its [size] attribute and its rows of pixels, top row
    first. The pixel type stands for the mode ('RGB' or 'RGBA'). *)
Record Image (px : Type) : Type := mkImage {
  im_size : Z * Z;
  im_rows : list (list px)
}.
Arguments mkImage {px} _ _.
Arguments im_size {px} _.
Arguments im_rows {px} _.

(** [Image.new(mode, (w, h), color)] *)
Definition Image_new {px} (size : Z * Z) (color : px) : Image px :=
  mkImage size
    (replicate (Z.to_nat (snd size)) (replicate (Z.to_nat (fst size)) color)).

(** [im.getpixel((x, y))]; [None] is Pillow's IndexError. *)
Definition getpixel {px} (im : Image px) (x y : Z) : option px :=
  if decide (0 <= x /\ 0 <= y)
  then im_rows im !! Z.to_nat y ≫= (fun row => row !! Z.to_nat x)
  else None.

(** One row of a horizontal line: the pixels with [x0 <= x <= x1] take the
    ink (both ends are drawn); positions outside the row do not exist, so
    the span is clipped to it. *)
Definition fill_span {px} (x0 x1 : Z) (ink : px) (row : list px) : list px :=
  imap (fun i p => if decide (x0 <= Z.of_nat i <= x1) then ink else p) row.

(** [ImageDraw.Draw(im).line([(x0, y), (x1, y)], fill=ink)] with the default
    width, for a segment whose two ends share their ordinate, which is the
    only way the script calls it. A line outside the image draws nothing. *)
Definition draw_hline {px} (im : Image px) (x0 x1 y : Z) (ink : px) : Image px :=
  if decide (0 <= y)
  then mkImage (im_size im)
         (alter (fill_span (Z.min x0 x1) (Z.max x0 x1) ink) (Z.to_nat y) (im_rows im))
  else im.

(** [im.convert('RGBA')] on an RGB image: every pixel becomes opaque. *)
Definition convert_RGBA (im : Image RGB) : Image RGBA :=
  mkImage (im_size im)
    (map (map (fun p : RGB => let '(r, g, b) := p in (r, g, b, 255))) (im_rows im)).

(** [im.convert('RGB')] on an RGBA image: the alpha band is dropped. *)
Definition convert_RGB (im : Image RGBA) : Image RGB :=
  mkImage (im_size im)
    (map (map (fun p : RGBA => let '(r, g, b, _) := p in (r, g, b))) (im_rows im)).

End Raster.
Import Raster.

(** ** Python numbers *)

(** [int(q)] on a float truncates towards zero. *)
Definition py_int (q : Q) : Z := Z.quot (Qnum q) (Zpos (Qden q)).

(** [a / b] on two ints is true division. The script only divides by
    [size = 1024 = 2^10], with a numerator below [2^10]: the quotient, its
    product with an integer below [2^7] and the sum with an integer below
    [2^8] are dyadic numbers with at most 18 significant bits, so binary64
    arithmetic is exact on them and rationals give the very same values
    (see [gradient_binary64_exact]). *)
Definition py_truediv (a b : Z) : Q :=
  match b with
  | Zpos d => a # d
  | Zneg d => (- a) # d
  | Z0 => 0%Q (* ZeroDivisionError; unreachable with size = 1024 *)
  end.

(** ** The gradient (lines 19-29) *)

Definition start_color : RGB := (16, 185, 129).
Definition end_color : RGB := (6, 182, 212).

(** The colour computed for scanline [y] (lines 26-28). *)
Definition scanline_color (size y : Z) : RGB :=
  let r := py_int (inject_Z 16 + inject_Z (6 - 16) * py_truediv y size) in
  let g := py_int (inject_Z 185 + inject_Z (182 - 185) * py_truediv y size) in
  let b := py_int (inject_Z 129 + inject_Z (212 - 129) * py_truediv y size) in
  (r, g, b).

(** The loop of lines 24-29 over [range(size)], on any starting image. *)
Definition gradient_loop (size : Z) (img : Image RGB) : Image RGB :=
  foldl (fun im y => draw_hline im 0 size y (scanline_color size y))
        img (seqZ 0 size).

(** Lines 19-29: the base image before the overlay. *)
Definition gradient_background (size : Z) : Image RGB :=
  gradient_loop size (Image_new (size, size) (0, 0, 0)).

Definition icon_size : Z := 1024.

(** ** The flame overlay (lines 31-63) *)

Definition flame_color : RGBA := (255, 255, 255, 230).

Definition flame_points : list (Z * Z) :=
  [(512, 200); (350, 800); (512, 700); (674, 800)].

Definition inner_flame : list (Z * Z) :=
  [(512, 300); (420, 700); (512, 600); (604, 700)].

(** The Pillow operations the script uses as black boxes. *)
Record Pillow : Type := {
  (** [ImageDraw.Draw(im).polygon(xy, fill, outline, width)], returning the
      image it has drawn on *)
  polygon : Image RGBA -> list (Z * Z) -> option RGBA -> option RGBA -> Z -> Image RGBA;
  (** [Image.alpha_composite(im1, im2)] *)
  alpha_composite : Image RGBA -> Image RGBA -> Image RGBA;
  (** the pixel grid [Image.Resampling.LANCZOS] computes for a target size *)
  lanczos : Image RGB -> Z * Z -> list (list RGB)
}.

(** [im.resize(size, Image.Resampling.LANCZOS)]: a new image of the
    requested size holding the resampled grid. *)
Definition resize (P : Pillow) (im : Image RGB) (size : Z * Z) : Image RGB :=
  mkImage size (lanczos P im size).

(** The overlay of lines 44-57: a transparent canvas, then the two polygons;
    [width] defaults to 1 in the second call. *)
Definition blank_overlay (size : Z) : Image RGBA := Image_new (size, size) (0, 0, 0, 0).

Definition flame_overlay (P : Pillow) (size : Z) : Image RGBA :=
  let overlay := blank_overlay size in
  let overlay := polygon P overlay flame_points
                   (Some flame_color) (Some (255, 255, 255, 255)) 8 in
  polygon P overlay inner_flame (Some (255, 255, 255, 180)) None 1.

(** [create_gradient_icon()] *)
Definition create_gradient_icon (P : Pillow) : Image RGB :=
  let size := icon_size in
  let img := gradient_background size in
  let overlay := flame_overlay P size in
  let img_rgba := convert_RGBA img in
  let img_rgba := alpha_composite P img_rgba overlay in
  convert_RGB img_rgba.

(** ** The machine the script runs on *)

Inductive content : Type :=
| Png (im : Image RGB)
| Bytes (data : string).

Inductive node : Type :=
| Dir
| File (c : content).

(** A path relative to the working directory, one string per component. *)
Definition path : Type := list string.

Record Machine : Type := mkMachine {
  fs : gmap (list string) node;
  pillow_installed : bool
}.

Definition set_fs (f : gmap (list string) node -> gmap (list string) node)
    (m : Machine) : Machine :=
  mkMachine (f (fs m)) (pillow_installed m).

(** The node a path names; the empty path is the working directory. *)
Definition stat (m : Machine) (p : path) : option node :=
  match p with
  | [] => Some Dir
  | _ => fs m !! p
  end.

Definition parent (p : path) : path := removelast p.

Inductive exn : Type :=
| ImportError
| CalledProcessError (returncode : Z) (cmd : list string)
| FileNotFoundError
| FileExistsError
| NotADirectoryError
| IsADirectoryError
| SystemExit (code : Z).

(** What the script asks of Pillow's codecs, the file system and the
    process table, in program order. *)
Inductive event : Type :=
| EvPrint (s : string)
| EvMkdir (p : path)
| EvResize (src : Image RGB) (size : Z * Z)
| EvSave (p : path) (im : Image RGB)
| EvSpawn (argv : list string)
| EvRmtree (p : path).

(** The interpreter and the programs around the script. *)
Record OS : Type := {
  sys_executable : string;
  (** running a command to completion: [None] when it cannot be started,
      else its exit status and the machine it leaves *)
  spawn : list string -> Machine -> option (Z * Machine);
  (** [str(e)] *)
  str_exn : exn -> string
}.

(** ** A monad for statements: state, exceptions and the event log *)

Definition M (A : Type) : Type := Machine -> (exn + A) * Machine * list event.

Definition ret {A} (a : A) : M A := fun m => (inr a, m, []).

Definition raise {A} (e : exn) : M A := fun m => (inl e, m, []).

Definition bind {A B} (c : M A) (k : A -> M B) : M B :=
  fun m =>
    match c m with
    | (inl e, m1, t1) => (inl e, m1, t1)
    | (inr a, m1, t1) => let '(r, m2, t2) := k a m1 in (r, m2, t1 ++ t2)
    end.

Declare Scope py_scope.
Delimit Scope py_scope with py.
Notation "x <- c ;; k" := (bind c (fun x => k))
  (at level 100, c at next level, right associativity) : py_scope.
Notation "c ;; k" := (bind c (fun _ => k))
  (at level 100, right associativity) : py_scope.
Open Scope py_scope.

Definition emit (e : event) : M unit := fun m => (inr tt, m, [e]).

(** [try: c  except ...: h e], where [h] answers [None] on the exceptions
    the clause does not name. *)
Definition try_except {A} (c : M A) (h : exn -> option (M A)) : M A :=
  fun m =>
    match c m with
    | (inl e, m1, t1) =>
        match h e with
        | Some k => let '(r, m2, t2) := k m1 in (r, m2, t1 ++ t2)
        | None => (inl e, m1, t1)
        end
    | ok => ok
    end.

(** [for x in l: body x] *)
Fixpoint for_each {B} (l : list B) (body : B -> M unit) : M unit :=
  match l with
  | [] => ret tt
  | x :: l' => body x ;; for_each l' body
  end.

Definition print (s : string) : M unit := emit (EvPrint s).

(** [from PIL import Image, ImageDraw, ImageFont] *)
Definition import_PIL : M unit :=
  fun m => if pillow_installed m then (inr tt, m, []) else (inl ImportError, m, []).

(** Opening a path for creation needs its parent to be a directory. *)
Definition check_parent (p : path) : M unit :=
  fun m =>
    match stat m (parent p) with
    | None => (inl FileNotFoundError, m, [])
    | Some (File _) => (inl NotADirectoryError, m, [])
    | Some Dir => (inr tt, m, [])
    end.

(** [Path.mkdir(exist_ok=...)], without [parents]. *)
Definition Path_mkdir (p : path) (exist_ok : bool) : M unit :=
  emit (EvMkdir p) ;;
  check_parent p ;;
  fun m =>
    match stat m p with
    | None => (inr tt, set_fs (insert p Dir) m, [])
    | Some Dir => if exist_ok then (inr tt, m, []) else (inl FileExistsError, m, [])
    | Some (File _) => (inl FileExistsError, m, [])
    end.

(** [im.resize((n, n), Image.Resampling.LANCZOS)] *)
Definition Image_resize (P : Pillow) (im : Image RGB) (size : Z * Z) : M (Image RGB) :=
  emit (EvResize im size) ;; ret (resize P im size).

(** [im.save(p)] for a path ending in [.png]. *)
Definition Image_save (im : Image RGB) (p : path) : M unit :=
  emit (EvSave p im) ;;
  check_parent p ;;
  fun m =>
    match stat m p with
    | Some Dir => (inl IsADirectoryError, m, [])
    | _ => (inr tt, set_fs (insert p (File (Png im))) m, [])
    end.

(** [subprocess.run(argv, check=True)] and [subprocess.check_call(argv)] *)
Definition subprocess_run (os : OS) (argv : list string) : M Z :=
  emit (EvSpawn argv) ;;
  fun m =>
    match spawn os argv m with
    | None => (inl FileNotFoundError, m, [])
    | Some (status, m') =>
        if decide (status = 0) then (inr status, m', [])
        else (inl (CalledProcessError status argv), m', [])
    end.

(** [shutil.rmtree(p)] *)
Definition shutil_rmtree (p : path) : M unit :=
  emit (EvRmtree p) ;;
  fun m =>
    match stat m p with
    | None => (inl FileNotFoundError, m, [])
    | Some (File _) => (inl NotADirectoryError, m, [])
    | Some Dir =>
        (inr tt, set_fs (filter (fun kv => ¬ p `prefix_of` kv.1)) m, [])
    end.

(** [sys.exit(code)] *)
Definition sys_exit {A} (code : Z) : M A := raise (SystemExit code).

(** [str(p)] on a POSIX path *)
Definition str_path (p : path) : string := String.concat "/" p.

(** ** The script *)

Definition icon_dir : path := ["icon_temp"].
Definition iconset_dir : path := icon_dir ++ ["AppIcon.iconset"].

(** The table of lines 81-92. *)
Definition sizes : list (Z * string) :=
  [ (16, "16x16");
    (32, "16x16@2x");
    (32, "32x32");
    (64, "32x32@2x");
    (128, "128x128");
    (256, "128x128@2x");
    (256, "256x256");
    (512, "256x256@2x");
    (512, "512x512");
    (1024, "512x512@2x") ].

(** [iconset_dir / f"icon_{name}.png"] *)
Definition png_path (name : string) : path :=
  iconset_dir ++ ["icon_" +:+ name +:+ ".png"].

Definition iconutil_argv : list string :=
  ["iconutil"; "-c"; "icns"; str_path iconset_dir; "-o"; "AppIcon.icns"].

Definition pip_argv (os : OS) : list string :=
  [sys_executable os; "-m"; "pip"; "install"; "pillow"].

(** Lines 10-15: the guarded import. *)
Definition import_guard (os : OS) : M unit :=
  try_except import_PIL
    (fun e =>
       match e with
       | ImportError =>
           Some (print "⚠️  Pillow not found. Installing..." ;;
                 subprocess_run os (pip_argv os) ;;
                 import_PIL)
       | _ => None
       end).

(** Lines 95-98: one turn of the loop over the table. *)
Definition write_rendition (P : Pillow) (base_icon : Image RGB)
    (entry : Z * string) : M unit :=
  let '(size, name) := entry in
  print ("  → " +:+ name) ;;
  resized <- Image_resize P base_icon (size, size) ;;
  Image_save resized (png_path name).

(** Lines 67-98 of [create_iconset]: everything before the packaging step. *)
Definition stage_iconset (P : Pillow) : M unit :=
  print "🎨 Creating Momentum app icon..." ;;
  print "📐 Generating base icon (1024x1024)..." ;;
  let base_icon := create_gradient_icon P in
  Path_mkdir icon_dir true ;;
  Path_mkdir iconset_dir true ;;
  print "✨ Creating icon set with all required sizes..." ;;
  for_each sizes (write_rendition P base_icon).

(** Lines 100-110: the packaging step. [Some b] is the [return b] of the
    except clause, [None] falls through to the statements after it. *)
Definition package_iconset (os : OS) : M (option bool) :=
  print "📦 Creating .icns file..." ;;
  try_except
    (subprocess_run os iconutil_argv ;; ret None)
    (fun e =>
       match e with
       | CalledProcessError _ _ =>
           Some (print ("❌ Failed to create .icns file: " +:+ str_exn os e) ;;
                 ret (Some false))
       | _ => None
       end).

(** Lines 112-123: what follows a packaging step that raised nothing. *)
Definition finish_iconset : M bool :=
  print "🧹 Cleaning up temporary files..." ;;
  shutil_rmtree icon_dir ;;
  print "✅ Icon created successfully!" ;;
  print "📍 Icon file: AppIcon.icns" ;;
  print "" ;;
  print "🎯 Next steps:" ;;
  print "   1. (Optional) Edit this script to customize the icon design" ;;
  print "   2. Run ./build_app.sh to rebuild the app with the new icon" ;;
  ret true.

(** [create_iconset()] *)
Definition create_iconset (P : Pillow) (os : OS) : M bool :=
  stage_iconset P ;;
  returned <- package_iconset os ;;
  match returned with
  | Some b => ret b
  | None => finish_iconset
  end.

(** Lines 125-127. *)
Definition main (P : Pillow) (os : OS) : M unit :=
  success <- create_iconset P os ;;
  sys_exit (if success : bool then 0 else 1).

(** The module body, top to bottom. *)
Definition script (P : Pillow) (os : OS) : M unit :=
  import_guard os ;; main P os.

(** How the interpreter ends: [sys.exit] and falling off the end give an
    exit status, any other exception reaches the top level uncaught (the
    interpreter then prints a traceback and the status is 1). *)
Inductive termination : Type :=
| Exit (status : Z)
| Uncaught (e : exn).

Definition exit_status (t : termination) : Z :=
  match t with
  | Exit status => status
  | Uncaught _ => 1
  end.

Definition run_process (P : Pillow) (os : OS) (m : Machine)
    : termination * Machine * list event :=
  match script P os m with
  | (inr _, m', t) => (Exit 0, m', t)
  | (inl (SystemExit code), m', t) => (Exit code, m', t)
  | (inl e, m', t) => (Uncaught e, m', t)
  end.

(** ** Reading an event log *)

Definition spawned (t : list event) : list (list string) :=
  omap (fun e => match e with EvSpawn argv => Some argv | _ => None end) t.

Definition saved (t : list event) : list (path * Image RGB) :=
  omap (fun e => match e with EvSave p im => Some (p, im) | _ => None end) t.

Definition resized (t : list event) : list (Image RGB * (Z * Z)) :=
  omap (fun e => match e with EvResize src size => Some (src, size) | _ => None end) t.

Definition is_print (e : event) : bool :=
  match e with EvPrint _ => true | _ => false end.

Definition is_render (e : event) : bool :=
  match e with EvResize _ _ | EvSave _ _ => true | _ => false end.

(** The resize and save calls, in program order. *)
Definition renders (t : list event) : list event := List.filter is_render t.

Definition removed (t : list event) : list path :=
  omap (fun e => match e with EvRmtree p => Some p | _ => None end) t.

(** The call log without the prints. *)
Definition calls (t : list event) : list event :=
  List.filter (fun e => negb (is_print e)) t.

(** ** Vocabulary of the statements *)

(** A rational that binary64 holds exactly: a power-of-two denominator
    within the exponent range and a numerator of at most 53 bits. *)
Fixpoint is_pow2 (p : positive) : bool :=
  match p with
  | xH => true
  | xO p' => is_pow2 p'
  | xI _ => false
  end.

Definition fits_binary64 (q : Q) : bool :=
  (Z.abs (Qnum q) <? 2 ^ 53) && is_pow2 (Qden q) && (Zpos (Qden q) <=? 2 ^ 1000).

(** The values [r = int(a + d * (y / size))] goes through at line 26-28. *)
Definition channel_steps (a d size y : Z) : list Q :=
  [ py_truediv y size;
    (inject_Z d * py_truediv y size)%Q;
    (inject_Z a + inject_Z d * py_truediv y size)%Q ].

(** Two colours that differ by at most one unit in every channel. *)
Definition within_rounding (c1 c2 : RGB) : Prop :=
  let '(r1, g1, b1) := c1 in
  let '(r2, g2, b2) := c2 in
  Z.abs (r1 - r2) <= 1 /\ Z.abs (g1 - g2) <= 1 /\ Z.abs (b1 - b2) <= 1.

(** The machine the packaging step starts on. *)
Definition after_staging (P : Pillow) (m : Machine) : Machine :=
  snd (fst (stage_iconset P m)).

Definition absent_or_dir (o : option node) : bool :=
  match o with
  | None | Some Dir => true
  | Some (File _) => false
  end.

Definition not_a_dir (o : option node) : bool :=
  match o with
  | Some Dir => false
  | _ => true
  end.

(** Nothing stands in the way of staging: the two staging directories are
    free or directories already, and no rendition path is a directory. *)
Definition stage_ready (m : Machine) : bool :=
  absent_or_dir (fs m !! icon_dir)
  && absent_or_dir (fs m !! iconset_dir)
  && forallb (fun entry : Z * string => not_a_dir (fs m !! png_path (snd entry))) sizes.

(** The staging tree of an earlier run is still there. *)
Definition leftover_tree (m : Machine) : Prop :=
  fs m !! icon_dir = Some Dir /\ fs m !! iconset_dir = Some Dir.

(** The rendition the loop writes for a table entry. *)
Definition rendition (P : Pillow) (entry : Z * string) : path * Image RGB :=
  (png_path (snd entry), resize P (create_gradient_icon P) (fst entry, fst entry)).

(** [p] names something directly inside directory [d]. *)
Definition inside (m : Machine) (d p : path) : Prop :=
  p <> [] /\ parent p = d /\ is_Some (fs m !! p).

(** The exceptions the file-system calls raise (subclasses of [OSError]). *)
Definition is_os_error (e : exn) : bool :=
  match e with
  | FileNotFoundError | FileExistsError | NotADirectoryError | IsADirectoryError => true
  | _ => false
  end.

(** The events of one turn of the loop, and of a staging phase that runs to
    its end. *)
Definition rendition_events (P : Pillow) (entry : Z * string) : list event :=
  [ EvPrint ("  → " +:+ snd entry);
    EvResize (create_gradient_icon P) (fst entry, fst entry);
    EvSave (fst (rendition P entry)) (snd (rendition P entry)) ].

Definition stage_trace (P : Pillow) : list event :=
  [ EvPrint "🎨 Creating Momentum app icon...";
    EvPrint "📐 Generating base icon (1024x1024)...";
    EvMkdir icon_dir;
    EvMkdir iconset_dir;
    EvPrint "✨ Creating icon set with all required sizes..." ]
  ++ concat (map (rendition_events P) sizes).

(** The paths staging may create or overwrite. *)
Definition stage_targets : list path :=
  icon_dir :: iconset_dir :: map (fun entry : Z * string => png_path (snd entry)) sizes.

(** [m'] keeps every entry of [m], differs from it on the paths of [S] at
    most, and has the same packages installed. *)
Definition grows_within (S : list path) (m m' : Machine) : Prop :=
  pillow_installed m' = pillow_installed m
  /\ forall p : path,
       (is_Some (fs m !! p) -> is_Some (fs m' !! p))
       /\ (p ∉ S -> fs m' !! p = fs m !! p).

(** The machine a staging phase that meets no obstacle leaves: the two
    directories made where they were missing, then one file per entry. *)
Definition made_dir (p : path) (m : Machine) : Machine :=
  match fs m !! p with
  | None => set_fs (insert p Dir) m
  | Some _ => m
  end.

Definition written (P : Pillow) (m : Machine) (entry : Z * string) : Machine :=
  set_fs (insert (fst (rendition P entry)) (File (Png (snd (rendition P entry))))) m.

Definition staged (P : Pillow) (m : Machine) : Machine :=
  foldl (written P) (made_dir iconset_dir (made_dir icon_dir m)) sizes.

(** ** Sample environments, to run the script on *)

Module Samples.

(** Nearest-neighbour sampling stands in for the Lanczos filter, polygons
    leave the canvas as it is and compositing keeps the backdrop. *)
Definition nearest (im : Image RGB) (size : Z * Z) : list (list RGB) :=
  let '(w, h) := size in
  let '(sw, sh) := im_size im in
  (fun y => (fun x => default (0, 0, 0) (getpixel im (x * sw / w) (y * sh / h)))
              <$> seqZ 0 w) <$> seqZ 0 h.

Definition pillow : Pillow :=
  {| polygon := fun im _ _ _ _ => im;
     alpha_composite := fun im1 _ => im1;
     lanczos := nearest |}.

Definition render (e : exn) : string :=
  match e with
  | CalledProcessError _ _ => "Command returned non-zero exit status."
  | _ => "error"
  end.

(** Every command exits with status 1 and touches nothing. *)
Definition os_failing : OS :=
  {| sys_executable := "/usr/bin/python3";
     spawn := fun _ m => Some (1, m);
     str_exn := render |}.

(** [iconutil] writes its output file; any other command is [pip], which
    installs Pillow. Both exit with status 0. *)
Definition os_working : OS :=
  {| sys_executable := "/usr/bin/python3";
     spawn := fun argv m =>
       match argv with
       | "iconutil" :: _ =>
           Some (0, set_fs (insert ["AppIcon.icns"] (File (Bytes "icns"))) m)
       | _ => Some (0, mkMachine (fs m) true)
       end;
     str_exn := render |}.

(** No command can be started. *)
Definition os_bare : OS :=
  {| sys_executable := "/usr/bin/python3";
     spawn := fun _ _ => None;
     str_exn := render |}.

(** An empty working directory, with or without Pillow. *)
Definition fresh (pil : bool) : Machine := mkMachine ∅ pil.

(** A working directory holding the staging tree and a stray file in it. *)
Definition littered : Machine :=
  mkMachine
    (<[iconset_dir ++ ["old.png"] := File (Bytes "stale")]>
       (<[iconset_dir := Dir]> (<[icon_dir := Dir]> ∅)))
    true.

(** A working directory where a regular file is in the way of [icon_temp]. *)
Definition blocked : Machine :=
  mkMachine (<[icon_dir := File (Bytes "not a directory")]> ∅) true.

(** A staging tree in which the third rendition path is a directory. *)
Definition obstructed : Machine :=
  mkMachine
    (<[png_path "32x32" := Dir]>
       (<[iconset_dir := Dir]> (<[icon_dir := Dir]> ∅)))
    true.

End Samples.

(** * Properties *)

(** ** The gradient *)

Lemma fill_span_replicate {px} (n : nat) (x1 : Z) (ink c : px) :
  Z.of_nat n - 1 <= x1 ->
  fill_span 0 x1 ink (replicate n c) = replicate n ink.
Proof.
  intros Hx. apply list_eq. intros i. unfold fill_span.
  rewrite list_lookup_imap.
  destruct (decide (i < n)%nat) as [Hi|Hi].
  - rewrite !lookup_replicate_2 by done. simpl.
    rewrite decide_True by lia. done.
  - rewrite !(proj1 (lookup_replicate_None _ _ _)) by lia. done.
Qed.

Lemma gradient_loop_rows (size : Z) (n : nat) (c0 : RGB) :
  Z.of_nat n <= size ->
  im_rows (foldl (fun im y => draw_hline im 0 size y (scanline_color size y))
             (Image_new (size, size) c0) (seqZ 0 (Z.of_nat n)))
  = ((fun y => replicate (Z.to_nat size) (scanline_color size y)) <$> seqZ 0 (Z.of_nat n))
    ++ replicate (Z.to_nat size - n) (replicate (Z.to_nat size) c0)
  /\ im_size (foldl (fun im y => draw_hline im 0 size y (scanline_color size y))
             (Image_new (size, size) c0) (seqZ 0 (Z.of_nat n))) = (size, size).
Proof.
  induction n as [|n IH]; intros Hn.
  - simpl. rewrite Nat.sub_0_r. done.
  - destruct IH as [IHr IHs]; [lia|].
    rewrite seqZ_S, foldl_app. simpl.
    unfold draw_hline at 1 3. rewrite decide_True by lia. simpl.
    split; [|done].
    rewrite IHr, fmap_app. simpl.
    replace (Z.to_nat (0 + Z.of_nat n)) with
      (length ((fun y => replicate (Z.to_nat size) (scanline_color size y)) <$> seqZ 0 (Z.of_nat n)) + 0)%nat
      by (rewrite length_fmap, length_seqZ; lia).
    rewrite alter_app_r.
    replace (Z.to_nat size - n)%nat with (S (Z.to_nat size - S n)) by lia.
    simpl. rewrite <- app_assoc. simpl. f_equal. f_equal.
    rewrite Z.min_l, Z.max_r by lia.
    apply fill_span_replicate. lia.
Qed.

Lemma gradient_background_rows (size : Z) :
  0 <= size ->
  im_rows (gradient_background size)
  = (fun y => replicate (Z.to_nat size) (scanline_color size y)) <$> seqZ 0 size.
Proof.
  intros Hs. unfold gradient_background, gradient_loop.
  destruct (gradient_loop_rows size (Z.to_nat size) (0, 0, 0)) as [Hr _]; [lia|].
  rewrite Z2Nat.id, Nat.sub_diag in Hr by done. simpl in Hr.
  rewrite app_nil_r in Hr. exact Hr.
Qed.

Lemma gradient_background_size (size : Z) :
  0 <= size -> im_size (gradient_background size) = (size, size).
Proof.
  intros Hs. unfold gradient_background, gradient_loop.
  destruct (gradient_loop_rows size (Z.to_nat size) (0, 0, 0)) as [_ Hz]; [lia|].
  rewrite Z2Nat.id in Hz by done. exact Hz.
Qed.

Lemma getpixel_gradient_background (size x y : Z) :
  0 <= x < size -> 0 <= y < size ->
  getpixel (gradient_background size) x y = Some (scanline_color size y).
Proof.
  intros Hx Hy. unfold getpixel. rewrite decide_True by lia.
  rewrite gradient_background_rows by lia.
  rewrite list_lookup_fmap, lookup_seqZ_lt by lia. simpl.
  rewrite lookup_replicate_2 by lia. do 2 f_equal. lia.
Qed.

Lemma scanline_color_1024 (y : Z) :
  scanline_color icon_size y
  = ((16384 - 10 * y) ÷ 1024, (189440 - 3 * y) ÷ 1024, (132096 + 83 * y) ÷ 1024).
Proof.
  unfold scanline_color, icon_size, py_int, py_truediv. cbn [Qnum Qden Qplus Qmult inject_Z].
  change (Z.pos (1 * (1 * 1024))) with 1024.
  change (Z.pos (1 * 1024)) with 1024.
  f_equal; [f_equal|]; (f_equal; lia).
Qed.

(** Property X4. On every scanline, each value the interpolation of
    lines 26-28 goes through (the quotient [y / size], its product with the
    colour difference, the sum with the start channel) is a dyadic number of
    at most 53 bits: binary64 holds it exactly, so no rounding happens
    before [int] truncates. *)
Lemma gradient_binary64_exact (y : Z) :
  0 <= y < icon_size ->
  forallb fits_binary64
    (channel_steps 16 (6 - 16) icon_size y
       ++ channel_steps 185 (182 - 185) icon_size y
       ++ channel_steps 129 (212 - 129) icon_size y) = true.
Proof.
  unfold icon_size. intros Hy.
  unfold channel_steps, py_truediv, fits_binary64.
  cbn [app forallb Qnum Qden Qplus Qmult inject_Z is_pow2 Pos.mul].
  rewrite !andb_true_r.
  repeat (apply andb_true_intro; split); try reflexivity;
    apply Z.ltb_lt; lia.
Qed.

(** Claim C1. In the 1024x1024 base image every pixel of the top scanline
    is the start colour (16, 185, 129); every pixel of the last scanline,
    y = 1023, is (6, 182, 211), which is the end colour (6, 182, 212) up to
    one unit per channel; and every pixel of scanline [y] is the colour the
    three [int(...)] expressions of lines 26-28 give for [y]. *)
Theorem gradient_scanlines (x y : Z) :
  0 <= x < icon_size -> 0 <= y < icon_size ->
  getpixel (gradient_background icon_size) x 0 = Some start_color
  /\ (exists c, getpixel (gradient_background icon_size) x (icon_size - 1) = Some c
                /\ c = (6, 182, 211) /\ within_rounding c end_color)
  /\ getpixel (gradient_background icon_size) x y = Some (scanline_color icon_size y)
  /\ im_size (gradient_background icon_size) = (1024, 1024).
Proof.
  intros Hx Hy. unfold icon_size in Hx, Hy.
  split; [|split; [|split]].
  - rewrite getpixel_gradient_background by (unfold icon_size; lia).
    by rewrite scanline_color_1024.
  - exists (6, 182, 211).
    rewrite getpixel_gradient_background by (unfold icon_size; lia).
    rewrite scanline_color_1024. unfold icon_size, within_rounding, end_color.
    split; [reflexivity|]. split; [reflexivity|]. simpl. lia.
  - apply getpixel_gradient_background; unfold icon_size; lia.
  - apply (gradient_background_size 1024). lia.
Qed.


(** ** Paths and primitives *)

Lemma parent_png_path (name : string) : parent (png_path name) = iconset_dir.
Proof. reflexivity. Qed.

Lemma png_path_neq_iconset (name : string) : png_path name <> iconset_dir.
Proof. discriminate. Qed.

Lemma png_path_neq_icon (name : string) : png_path name <> icon_dir.
Proof. discriminate. Qed.

Lemma png_paths_NoDup :
  NoDup (map (fun entry : Z * string => png_path (snd entry)) sizes).
Proof. apply (bool_decide_unpack _). vm_compute. exact I. Qed.

(** ** The primitives, case by case *)

Lemma Path_mkdir_exist_ok (p : path) (m : Machine) :
  Path_mkdir p true m =
  match stat m (parent p) with
  | None => (inl FileNotFoundError, m, [EvMkdir p])
  | Some (File _) => (inl NotADirectoryError, m, [EvMkdir p])
  | Some Dir =>
      match stat m p with
      | None => (inr tt, set_fs (insert p Dir) m, [EvMkdir p])
      | Some Dir => (inr tt, m, [EvMkdir p])
      | Some (File _) => (inl FileExistsError, m, [EvMkdir p])
      end
  end.
Proof.
  unfold Path_mkdir, bind, emit, check_parent.
  destruct (stat m (parent p)) as [[|c]|]; try reflexivity.
  destruct (stat m p) as [[|c]|]; reflexivity.
Qed.

Lemma Image_save_cases (im : Image RGB) (p : path) (m : Machine) :
  Image_save im p m =
  match stat m (parent p) with
  | None => (inl FileNotFoundError, m, [EvSave p im])
  | Some (File _) => (inl NotADirectoryError, m, [EvSave p im])
  | Some Dir =>
      match stat m p with
      | Some Dir => (inl IsADirectoryError, m, [EvSave p im])
      | _ => (inr tt, set_fs (insert p (File (Png im))) m, [EvSave p im])
      end
  end.
Proof.
  unfold Image_save, bind, emit, check_parent.
  destruct (stat m (parent p)) as [[|c]|]; try reflexivity.
  destruct (stat m p) as [[|c]|]; reflexivity.
Qed.

Lemma write_rendition_cases (P : Pillow) (entry : Z * string) (m : Machine) :
  write_rendition P (create_gradient_icon P) entry m =
  let '(r, m', _) := Image_save (snd (rendition P entry)) (fst (rendition P entry)) m in
  (r, m', rendition_events P entry).
Proof.
  destruct entry as [n name]. unfold write_rendition, Image_resize, print, bind, emit, ret.
  unfold rendition_events, rendition. cbn [fst snd].
  rewrite Image_save_cases.
  destruct (stat m (parent (png_path name))) as [[|c]|]; try reflexivity.
  destruct (stat m (png_path name)) as [[|c]|]; reflexivity.
Qed.

Lemma subprocess_run_cases (os : OS) (argv : list string) (m : Machine) :
  subprocess_run os argv m =
  match spawn os argv m with
  | None => (inl FileNotFoundError, m, [EvSpawn argv])
  | Some (status, m') =>
      if decide (status = 0) then (inr status, m', [EvSpawn argv])
      else (inl (CalledProcessError status argv), m', [EvSpawn argv])
  end.
Proof.
  unfold subprocess_run, bind, emit.
  destruct (spawn os argv m) as [[status m']|]; [|reflexivity].
  destruct (decide (status = 0)); reflexivity.
Qed.

Lemma shutil_rmtree_cases (p : path) (m : Machine) :
  shutil_rmtree p m =
  match stat m p with
  | None => (inl FileNotFoundError, m, [EvRmtree p])
  | Some (File _) => (inl NotADirectoryError, m, [EvRmtree p])
  | Some Dir => (inr tt, set_fs (filter (fun kv => ¬ p `prefix_of` kv.1)) m, [EvRmtree p])
  end.
Proof.
  unfold shutil_rmtree, bind, emit.
  destruct (stat m p) as [[|c]|]; reflexivity.
Qed.

(** ** Machines that only grow *)

Lemma grows_within_refl (S : list path) (m : Machine) : grows_within S m m.
Proof. split; [done|]. intros p. split; auto. Qed.

Lemma grows_within_trans (S : list path) (m1 m2 m3 : Machine) :
  grows_within S m1 m2 -> grows_within S m2 m3 -> grows_within S m1 m3.
Proof.
  intros [Hi1 H1] [Hi2 H2]. split; [congruence|].
  intros p. destruct (H1 p) as [Ha Hb], (H2 p) as [Hc Hd]. split.
  - auto.
  - intros Hp. rewrite Hd, Hb; auto.
Qed.

Lemma grows_within_mono (S S' : list path) (m m' : Machine) :
  S ⊆ S' -> grows_within S m m' -> grows_within S' m m'.
Proof.
  intros Hsub [Hi H]. split; [done|]. intros p. destruct (H p) as [Ha Hb].
  split; [done|]. intros Hp. apply Hb. intros Hin. apply Hp, Hsub, Hin.
Qed.

Lemma grows_within_insert (S : list path) (p : path) (x : node) (m : Machine) :
  p ∈ S -> grows_within S m (set_fs (insert p x) m).
Proof.
  intros Hp. split; [done|]. intros q. simpl. split.
  - intros Hq. destruct (decide (p = q)) as [->|Hne].
    + rewrite lookup_insert_eq. eauto.
    + by rewrite lookup_insert_ne.
  - intros Hq. rewrite lookup_insert_ne; [done|]. by intros ->.
Qed.

(** ** The staging phase *)

Lemma Image_save_post (im : Image RGB) (p : path) (m : Machine) :
  p <> [] ->
  let '(r, m', t) := Image_save im p m in
  t = [EvSave p im]
  /\ match r with
     | inl e => is_os_error e = true /\ m' = m
     | inr _ => m' = set_fs (insert p (File (Png im))) m
     end.
Proof.
  intros Hp. rewrite Image_save_cases.
  destruct (stat m (parent p)) as [[|c]|]; [|done..].
  destruct (stat m p) as [[|c]|]; done.
Qed.

Lemma for_each_renditions_post (P : Pillow) (l : list (Z * string)) (m : Machine) :
  let '(r, m', t) := for_each l (write_rendition P (create_gradient_icon P)) m in
  t `prefix_of` concat (map (rendition_events P) l)
  /\ grows_within (map (fun entry : Z * string => png_path (snd entry)) l) m m'
  /\ match r with
     | inl e => is_os_error e = true
     | inr _ => t = concat (map (rendition_events P) l) /\ m' = foldl (written P) m l
     end.
Proof.
  revert m. induction l as [|entry l IH]; intros m.
  - simpl. split; [done|]. split; [apply grows_within_refl|done].
  - cbn [for_each]. unfold bind at 1. rewrite write_rendition_cases.
    pose proof (Image_save_post (snd (rendition P entry)) (fst (rendition P entry)) m) as Hs.
    destruct (Image_save _ _ m) as [[r m1] t1].
    destruct Hs as [-> Hr]; [destruct entry; discriminate|].
    destruct r as [e|[]].
    + destruct Hr as [He ->]. split; [|split; [apply grows_within_refl|done]].
      cbn [map concat]. by apply prefix_app_r.
    + subst m1. specialize (IH (set_fs (insert (rendition P entry).1
                                          (File (Png (rendition P entry).2))) m)).
      destruct (for_each l _ _) as [[r2 m2] t2].
      destruct IH as (Hpre & Hg & Hr2).
      split; [|split].
      * cbn [map concat]. by apply prefix_app.
      * eapply grows_within_trans.
        -- apply grows_within_insert. simpl. left.
        -- eapply grows_within_mono; [|exact Hg]. intros q Hq. by right.
      * destruct r2 as [e|[]]; [done|].
        destruct Hr2 as [-> ->]. done.
Qed.

Lemma foldl_written_lookup_other (P : Pillow) (l : list (Z * string)) (m : Machine) (p : path) :
  p ∉ map (fun entry : Z * string => png_path (snd entry)) l ->
  fs (foldl (written P) m l) !! p = fs m !! p.
Proof.
  revert m. induction l as [|entry l IH]; intros m Hp; [done|].
  simpl. rewrite IH.
  - simpl. rewrite lookup_insert_ne; [done|].
    intros Heq. apply Hp. rewrite <- Heq. left.
  - intros Hin. apply Hp. by right.
Qed.

Lemma foldl_written_lookup (P : Pillow) (l : list (Z * string)) (m : Machine)
    (entry : Z * string) :
  NoDup (map (fun entry : Z * string => png_path (snd entry)) l) ->
  entry ∈ l ->
  fs (foldl (written P) m l) !! png_path (snd entry)
  = Some (File (Png (snd (rendition P entry)))).
Proof.
  revert m. induction l as [|e0 l IH]; intros m Hnd Hin.
  - by apply elem_of_nil in Hin.
  - simpl in Hnd. apply NoDup_cons in Hnd as [Hnot Hnd].
    apply elem_of_cons in Hin as [->|Hin].
    + simpl. rewrite foldl_written_lookup_other by done.
      simpl. by rewrite lookup_insert_eq.
    + simpl. by apply IH.
Qed.

Lemma pillow_foldl_written (P : Pillow) (l : list (Z * string)) (m : Machine) :
  pillow_installed (foldl (written P) m l) = pillow_installed m.
Proof. revert m. induction l as [|e l IH]; intros m; [done|]. simpl. by rewrite IH. Qed.

Lemma for_each_renditions_ready (P : Pillow) (l : list (Z * string)) (m : Machine) :
  fs m !! iconset_dir = Some Dir ->
  Forall (fun entry : Z * string => fs m !! png_path (snd entry) <> Some Dir) l ->
  for_each l (write_rendition P (create_gradient_icon P)) m
  = (inr tt, foldl (written P) m l, concat (map (rendition_events P) l)).
Proof.
  revert m. induction l as [|entry l IH]; intros m Hdir Hl; [done|].
  apply Forall_cons in Hl as [He Hl].
  cbn [for_each]. unfold bind at 1. rewrite write_rendition_cases, Image_save_cases.
  destruct entry as [n name]. cbn [rendition fst snd] in *.
  rewrite parent_png_path. cbn [stat iconset_dir icon_dir app]. 
  change (fs m !! ["icon_temp"; "AppIcon.iconset"]) with (fs m !! iconset_dir).
  rewrite Hdir.
  change (stat m (png_path name)) with (fs m !! png_path name).
  assert (Hgo : for_each l (write_rendition P (create_gradient_icon P))
                  (written P m (n, name))
                = (inr tt, foldl (written P) (written P m (n, name)) l,
                   concat (map (rendition_events P) l))).
  { apply IH.
    - simpl. rewrite lookup_insert_ne; [done|]. discriminate.
    - eapply Forall_impl; [exact Hl|]. intros e Hne. simpl.
      destruct (decide (png_path name = png_path e.2)) as [<-|Hd].
      + by rewrite lookup_insert_eq.
      + by rewrite lookup_insert_ne. }
  destruct (fs m !! png_path name) as [[|c]|] eqn:E; [done| |];
    (change (set_fs (insert (png_path name)
               (File (Png (resize P (create_gradient_icon P) (n, n))))) m)
       with (written P m (n, name)); rewrite Hgo; reflexivity).
Qed.

Lemma bind_inr {A B} (c : M A) (k : A -> M B) (m m1 : Machine) (a : A) (t1 : list event) :
  c m = (inr a, m1, t1) ->
  bind c k m = let '(r, m2, t2) := k a m1 in (r, m2, t1 ++ t2).
Proof. intros H. unfold bind. by rewrite H. Qed.

Lemma bind_inl {A B} (c : M A) (k : A -> M B) (m m1 : Machine) (e : exn) (t1 : list event) :
  c m = (inl e, m1, t1) -> bind c k m = (inl e, m1, t1).
Proof. intros H. unfold bind. by rewrite H. Qed.

Lemma made_dir_lookup (p : path) (m : Machine) :
  absent_or_dir (fs m !! p) = true -> fs (made_dir p m) !! p = Some Dir.
Proof.
  unfold made_dir. destruct (fs m !! p) as [[|c]|] eqn:E; simpl; try done.
  intros _. by rewrite lookup_insert_eq.
Qed.

Lemma made_dir_lookup_ne (p q : path) (m : Machine) :
  p <> q -> fs (made_dir p m) !! q = fs m !! q.
Proof.
  intros Hne. unfold made_dir. destruct (fs m !! p); [done|].
  simpl. by rewrite lookup_insert_ne.
Qed.

Lemma Path_mkdir_ready (p : path) (m : Machine) :
  p <> [] -> stat m (parent p) = Some Dir -> absent_or_dir (fs m !! p) = true ->
  Path_mkdir p true m = (inr tt, made_dir p m, [EvMkdir p]).
Proof.
  intros Hp Hpar Hok. rewrite Path_mkdir_exist_ok, Hpar.
  unfold made_dir. destruct p as [|a p]; [done|]. cbn [stat]. revert Hok.
  destruct (lookup _ (fs m)) as [[|c]|]; done.
Qed.

Lemma stage_ready_inv (m : Machine) :
  stage_ready m = true ->
  absent_or_dir (fs m !! icon_dir) = true
  /\ absent_or_dir (fs m !! iconset_dir) = true
  /\ Forall (fun entry : Z * string => fs m !! png_path (snd entry) <> Some Dir) sizes.
Proof.
  unfold stage_ready. rewrite !andb_true_iff, forallb_forall.
  intros [[H1 H2] H3]. split; [done|]. split; [done|].
  apply Forall_forall. intros e He. specialize (H3 e).
  rewrite <- list_elem_of_In in H3. specialize (H3 He).
  intros Heq. rewrite Heq in H3. done.
Qed.

Lemma stage_iconset_ready (P : Pillow) (m : Machine) :
  stage_ready m = true ->
  stage_iconset P m = (inr tt, staged P m, stage_trace P).
Proof.
  intros (H1 & H2 & H3)%stage_ready_inv.
  unfold stage_iconset, print, staged, stage_trace.
  rewrite (bind_inr _ _ m m tt [EvPrint "🎨 Creating Momentum app icon..."]) by done.
  rewrite (bind_inr _ _ m m tt [EvPrint "📐 Generating base icon (1024x1024)..."]) by done.
  rewrite (bind_inr _ _ m _ tt _ (Path_mkdir_ready icon_dir m ltac:(done) eq_refl H1)).
  assert (Hd1 : fs (made_dir icon_dir m) !! icon_dir = Some Dir)
    by by apply made_dir_lookup.
  assert (H2' : absent_or_dir (fs (made_dir icon_dir m) !! iconset_dir) = true)
    by (rewrite made_dir_lookup_ne by discriminate; exact H2).
  rewrite (bind_inr _ _ _ _ tt _
             (Path_mkdir_ready iconset_dir (made_dir icon_dir m) ltac:(done) Hd1 H2')).
  rewrite (bind_inr _ _ _ (made_dir iconset_dir (made_dir icon_dir m)) tt
             [EvPrint "✨ Creating icon set with all required sizes..."]) by done.
  rewrite for_each_renditions_ready.
  - reflexivity.
  - by apply made_dir_lookup.
  - eapply Forall_impl; [exact H3|]. intros e He.
    rewrite !made_dir_lookup_ne by discriminate. exact He.
Qed.

Lemma Path_mkdir_post (p : path) (m : Machine) :
  let '(r, m', t) := Path_mkdir p true m in
  t = [EvMkdir p]
  /\ grows_within [p] m m'
  /\ match r with
     | inl e => is_os_error e = true
     | inr _ => True
     end.
Proof.
  rewrite Path_mkdir_exist_ok.
  destruct (stat m (parent p)) as [[|c]|];
    [|by (split; [|split; [apply grows_within_refl|]])..].
  destruct (stat m p) as [[|c]|];
    try by (split; [|split; [apply grows_within_refl|]]).
  split; [done|]. split; [|done]. apply grows_within_insert. left.
Qed.

Lemma stage_iconset_post (P : Pillow) (m : Machine) :
  let '(r, m', t) := stage_iconset P m in
  t `prefix_of` stage_trace P
  /\ grows_within stage_targets m m'
  /\ match r with
     | inl e => is_os_error e = true
     | inr _ => t = stage_trace P
     end.
Proof.
  unfold stage_iconset, print, stage_trace.
  rewrite (bind_inr _ _ m m tt [EvPrint "🎨 Creating Momentum app icon..."]) by done.
  rewrite (bind_inr _ _ m m tt [EvPrint "📐 Generating base icon (1024x1024)..."]) by done.
  unfold bind at 1.
  pose proof (Path_mkdir_post icon_dir m) as H1.
  destruct (Path_mkdir icon_dir true m) as [[r1 m1] t1].
  destruct H1 as (-> & Hg1 & Hr1).
  assert (Hg1' : grows_within stage_targets m m1).
  { eapply grows_within_mono; [|exact Hg1]. intros q ->%list_elem_of_singleton. left. }
  destruct r1 as [e|[]].
  { split; [|done]. by exists ([EvMkdir iconset_dir;
       EvPrint "✨ Creating icon set with all required sizes..."]
       ++ concat (map (rendition_events P) sizes)). }
  unfold bind at 1.
  pose proof (Path_mkdir_post iconset_dir m1) as H2.
  destruct (Path_mkdir iconset_dir true m1) as [[r2 m2] t2].
  destruct H2 as (-> & Hg2 & Hr2).
  assert (Hg2' : grows_within stage_targets m m2).
  { eapply grows_within_trans; [exact Hg1'|].
    eapply grows_within_mono; [|exact Hg2]. intros q ->%list_elem_of_singleton.
    right. left. }
  destruct r2 as [e|[]].
  { split; [|done]. by exists ([
       EvPrint "✨ Creating icon set with all required sizes..."]
       ++ concat (map (rendition_events P) sizes)). }
  rewrite (bind_inr _ _ m2 m2 tt
             [EvPrint "✨ Creating icon set with all required sizes..."]) by done.
  pose proof (for_each_renditions_post P sizes m2) as H3.
  destruct (for_each sizes _ m2) as [[r3 m3] t3].
  destruct H3 as (Hpre & Hg3 & Hr3).
  split; [|split].
  - cbn [app]. do 5 apply prefix_cons. exact Hpre.
  - eapply grows_within_trans; [exact Hg2'|].
    eapply grows_within_mono; [|exact Hg3]. intros q Hq. right. by right.
  - destruct r3 as [e|[]]; [done|]. by destruct Hr3 as [-> _].
Qed.

(** ** Packaging and cleaning up *)

Lemma package_iconset_cases (os : OS) (m : Machine) :
  package_iconset os m =
  match spawn os iconutil_argv m with
  | None =>
      (inl FileNotFoundError, m,
       [EvPrint "📦 Creating .icns file..."; EvSpawn iconutil_argv])
  | Some (status, m') =>
      if decide (status = 0)
      then (inr None, m', [EvPrint "📦 Creating .icns file..."; EvSpawn iconutil_argv])
      else (inr (Some false), m',
            [EvPrint "📦 Creating .icns file..."; EvSpawn iconutil_argv;
             EvPrint ("❌ Failed to create .icns file: "
                      +:+ str_exn os (CalledProcessError status iconutil_argv))])
  end.
Proof.
  unfold package_iconset, print, try_except.
  rewrite (bind_inr _ _ m m tt [EvPrint "📦 Creating .icns file..."]) by done.
  unfold bind at 1. rewrite subprocess_run_cases.
  destruct (spawn os iconutil_argv m) as [[status m']|]; [|reflexivity].
  destruct (decide (status = 0)); reflexivity.
Qed.

Lemma finish_iconset_cases (m : Machine) :
  finish_iconset m =
  match fs m !! icon_dir with
  | None =>
      (inl FileNotFoundError, m,
       [EvPrint "🧹 Cleaning up temporary files..."; EvRmtree icon_dir])
  | Some (File _) =>
      (inl NotADirectoryError, m,
       [EvPrint "🧹 Cleaning up temporary files..."; EvRmtree icon_dir])
  | Some Dir =>
      (inr true, set_fs (filter (fun kv => ¬ icon_dir `prefix_of` kv.1)) m,
       [EvPrint "🧹 Cleaning up temporary files..."; EvRmtree icon_dir;
        EvPrint "✅ Icon created successfully!";
        EvPrint "📍 Icon file: AppIcon.icns";
        EvPrint "";
        EvPrint "🎯 Next steps:";
        EvPrint "   1. (Optional) Edit this script to customize the icon design";
        EvPrint "   2. Run ./build_app.sh to rebuild the app with the new icon"])
  end.
Proof.
  unfold finish_iconset, print.
  rewrite (bind_inr _ _ m m tt [EvPrint "🧹 Cleaning up temporary files..."]) by done.
  unfold bind at 1. rewrite shutil_rmtree_cases.
  change (stat m icon_dir) with (fs m !! icon_dir).
  destruct (fs m !! icon_dir) as [[|c]|]; reflexivity.
Qed.

Lemma rmtree_lookup_inside (p q : path) (m : Machine) :
  p `prefix_of` q ->
  fs (set_fs (filter (fun kv => ¬ p `prefix_of` kv.1)) m) !! q = None.
Proof.
  intros Hpq. simpl. apply map_lookup_filter_None. right. intros x _ Hn. by apply Hn.
Qed.

Lemma rmtree_lookup_outside (p q : path) (m : Machine) :
  ¬ p `prefix_of` q ->
  fs (set_fs (filter (fun kv => ¬ p `prefix_of` kv.1)) m) !! q = fs m !! q.
Proof.
  intros Hpq. simpl. destruct (fs m !! q) as [x|] eqn:E.
  - apply map_lookup_filter_Some. by split.
  - apply map_lookup_filter_None. by left.
Qed.

(** The whole of [create_iconset], split at the staging phase. *)
Lemma create_iconset_split (P : Pillow) (os : OS) (m : Machine) :
  create_iconset P os m =
  match stage_iconset P m with
  | (inl e, m1, t1) => (inl e, m1, t1)
  | (inr _, m1, t1) =>
      match package_iconset os m1 with
      | (inl e, m2, t2) => (inl e, m2, t1 ++ t2)
      | (inr (Some b), m2, t2) => (inr b, m2, t1 ++ t2 ++ [])
      | (inr None, m2, t2) =>
          let '(r, m3, t3) := finish_iconset m2 in (r, m3, t1 ++ t2 ++ t3)
      end
  end.
Proof.
  unfold create_iconset, bind.
  destruct (stage_iconset P m) as [[[e|[]] m1] t1]; [reflexivity|].
  destruct (package_iconset os m1) as [[[e|[b|]] m2] t2]; try reflexivity.
  destruct (finish_iconset m2) as [[r m3] t3]. reflexivity.
Qed.

Lemma import_guard_installed (os : OS) (m : Machine) :
  pillow_installed m = true -> import_guard os m = (inr tt, m, []).
Proof. intros H. unfold import_guard, try_except, import_PIL. by rewrite H. Qed.

Lemma run_process_installed (P : Pillow) (os : OS) (m : Machine) :
  pillow_installed m = true ->
  run_process P os m =
  match create_iconset P os m with
  | (inl (SystemExit code), m', t) => (Exit code, m', t)
  | (inl e, m', t) => (Uncaught e, m', t)
  | (inr b, m', t) => (Exit (if b : bool then 0 else 1), m', t ++ [])
  end.
Proof.
  intros H. unfold run_process, script.
  rewrite (bind_inr _ _ m m tt [] (import_guard_installed os m H)).
  unfold main, bind, sys_exit, raise.
  destruct (create_iconset P os m) as [[[e|b] m'] t]; [by destruct e|].
  reflexivity.
Qed.

(** ** What the event log of a run holds *)

Lemma saved_stage_trace (P : Pillow) : saved (stage_trace P) = map (rendition P) sizes.
Proof. reflexivity. Qed.

Lemma resized_stage_trace (P : Pillow) :
  resized (stage_trace P)
  = map (fun entry : Z * string => (create_gradient_icon P, (fst entry, fst entry))) sizes.
Proof. reflexivity. Qed.

Lemma spawned_stage_trace (P : Pillow) : spawned (stage_trace P) = [].
Proof. reflexivity. Qed.

Lemma removed_stage_trace (P : Pillow) : removed (stage_trace P) = [].
Proof. reflexivity. Qed.

Lemma omap_prefix {A B} (f : A -> option B) (l1 l2 : list A) :
  l1 `prefix_of` l2 -> omap f l1 `prefix_of` omap f l2.
Proof. intros [k ->]. rewrite omap_app. by apply prefix_app_r. Qed.

Lemma prefix_nil_inv {A} (l : list A) : l `prefix_of` [] -> l = [].
Proof. intros [k Hk]. symmetry in Hk. by apply app_eq_nil in Hk as [-> _]. Qed.

(** The packaging step and the clean-up neither resize nor save, the
    packaging step starts one process and the clean-up none. *)
Lemma package_iconset_log (os : OS) (m : Machine) :
  let '(_, _, t) := package_iconset os m in
  saved t = [] /\ resized t = [] /\ spawned t = [iconutil_argv] /\ removed t = [].
Proof.
  rewrite package_iconset_cases.
  destruct (spawn os iconutil_argv m) as [[status m']|]; [|done].
  destruct (decide (status = 0)); done.
Qed.

Lemma finish_iconset_log (m : Machine) :
  let '(_, _, t) := finish_iconset m in
  saved t = [] /\ resized t = [] /\ spawned t = [] /\ removed t = [icon_dir].
Proof.
  rewrite finish_iconset_cases.
  destruct (fs m !! icon_dir) as [[|c]|]; done.
Qed.

Lemma create_iconset_log (P : Pillow) (os : OS) (m : Machine) :
  let '(r, _, t) := create_iconset P os m in
  saved t `prefix_of` map (rendition P) sizes
  /\ resized t `prefix_of`
       map (fun entry : Z * string => (create_gradient_icon P, (fst entry, fst entry))) sizes
  /\ spawned t = match fst (fst (stage_iconset P m)) with
                 | inr _ => [iconutil_argv]
                 | inl _ => []
                 end.
Proof.
  rewrite create_iconset_split.
  pose proof (stage_iconset_post P m) as Hs.
  destruct (stage_iconset P m) as [[r1 m1] t1]. destruct Hs as (Hpre & _ & Hr).
  destruct r1 as [e|[]].
  - cbn [fst]. split; [|split].
    + rewrite <- saved_stage_trace. by apply omap_prefix.
    + rewrite <- resized_stage_trace. by apply omap_prefix.
    + apply prefix_nil_inv. rewrite <- (spawned_stage_trace P). by apply omap_prefix.
  - subst t1. cbn [fst].
    pose proof (package_iconset_log os m1) as Hp.
    destruct (package_iconset os m1) as [[r2 m2] t2]. destruct Hp as (Hp1 & Hp2 & Hp3 & _).
    destruct r2 as [e|[b|]].
    + unfold saved, resized, spawned in *. rewrite !omap_app.
      rewrite Hp1, Hp2, Hp3, !app_nil_r. done.
    + unfold saved, resized, spawned in *. rewrite !omap_app.
      rewrite Hp1, Hp2, Hp3, !app_nil_r. done.
    + pose proof (finish_iconset_log m2) as Hf.
      destruct (finish_iconset m2) as [[r3 m3] t3]. destruct Hf as (Hf1 & Hf2 & Hf3 & _).
      unfold saved, resized, spawned in *. rewrite !omap_app.
      rewrite Hp1, Hp2, Hp3, Hf1, Hf2, Hf3, !app_nil_r. done.
Qed.

(** ** The staged machine *)

Lemma after_staging_ready (P : Pillow) (m : Machine) :
  stage_ready m = true -> after_staging P m = staged P m.
Proof. intros H. unfold after_staging. by rewrite stage_iconset_ready. Qed.

Lemma icon_dir_not_png :
  icon_dir ∉ map (fun entry : Z * string => png_path (snd entry)) sizes.
Proof. apply (bool_decide_unpack _). vm_compute. exact I. Qed.

Lemma iconset_dir_not_png :
  iconset_dir ∉ map (fun entry : Z * string => png_path (snd entry)) sizes.
Proof. apply (bool_decide_unpack _). vm_compute. exact I. Qed.

Lemma staged_dirs (P : Pillow) (m : Machine) :
  stage_ready m = true ->
  fs (staged P m) !! icon_dir = Some Dir /\ fs (staged P m) !! iconset_dir = Some Dir.
Proof.
  intros (H1 & H2 & _)%stage_ready_inv. unfold staged.
  rewrite !foldl_written_lookup_other by (apply icon_dir_not_png || apply iconset_dir_not_png).
  split.
  - rewrite made_dir_lookup_ne by discriminate. by apply made_dir_lookup.
  - apply made_dir_lookup. by rewrite made_dir_lookup_ne by discriminate.
Qed.

Lemma staged_files (P : Pillow) (m : Machine) :
  Forall (fun entry : Z * string =>
            fs (staged P m) !! png_path (snd entry)
            = Some (File (Png (snd (rendition P entry))))) sizes.
Proof.
  apply Forall_forall. intros entry Hin. unfold staged.
  apply foldl_written_lookup; [apply png_paths_NoDup|done].
Qed.

Lemma staged_other (P : Pillow) (m : Machine) (p : path) :
  p ∉ stage_targets -> fs (staged P m) !! p = fs m !! p.
Proof.
  unfold stage_targets. intros Hp. unfold staged.
  rewrite foldl_written_lookup_other.
  - rewrite !made_dir_lookup_ne; [done| |].
    + intros <-. apply Hp. left.
    + intros <-. apply Hp. right. left.
  - intros Hin. apply Hp. right. by right.
Qed.

Lemma staged_pillow (P : Pillow) (m : Machine) :
  pillow_installed (staged P m) = pillow_installed m.
Proof.
  unfold staged. rewrite pillow_foldl_written. unfold made_dir.
  destruct (fs m !! icon_dir); simpl;
    match goal with |- context [lookup iconset_dir ?f] => destruct (lookup iconset_dir f) end;
    done.
Qed.

(** Claim C2. On a machine where nothing obstructs staging and the iconset
    directory holds nothing yet, the staging phase returns normally having
    saved exactly ten files, named [icon_<suffix>.png] for the ten suffixes
    of the table in table order, each file on disk holding the image saved
    for it, whose size is the declared square (16, 32, 32, 64, 128, 256,
    256, 512, 512, 1024); afterwards these ten are exactly the entries of
    the iconset directory. *)
Theorem ten_renditions (P : Pillow) (m : Machine) :
  stage_ready m = true ->
  (forall p : path, ¬ inside m iconset_dir p) ->
  let '(r, m', t) := stage_iconset P m in
  r = inr tt
  /\ map fst (saved t)
     = [ ["icon_temp"; "AppIcon.iconset"; "icon_16x16.png"];
         ["icon_temp"; "AppIcon.iconset"; "icon_16x16@2x.png"];
         ["icon_temp"; "AppIcon.iconset"; "icon_32x32.png"];
         ["icon_temp"; "AppIcon.iconset"; "icon_32x32@2x.png"];
         ["icon_temp"; "AppIcon.iconset"; "icon_128x128.png"];
         ["icon_temp"; "AppIcon.iconset"; "icon_128x128@2x.png"];
         ["icon_temp"; "AppIcon.iconset"; "icon_256x256.png"];
         ["icon_temp"; "AppIcon.iconset"; "icon_256x256@2x.png"];
         ["icon_temp"; "AppIcon.iconset"; "icon_512x512.png"];
         ["icon_temp"; "AppIcon.iconset"; "icon_512x512@2x.png"] ]
  /\ Forall2 (fun (f : path * Image RGB) (n : Z) =>
                fs m' !! fst f = Some (File (Png (snd f))) /\ im_size (snd f) = (n, n))
       (saved t) [16; 32; 32; 64; 128; 256; 256; 512; 512; 1024]
  /\ (forall p : path, inside m' iconset_dir p <-> p ∈ map fst (saved t)).
Proof.
  intros Hready Hempty. rewrite stage_iconset_ready by done.
  split; [done|]. split; [reflexivity|]. rewrite saved_stage_trace. split.
  - pose proof (staged_files P m) as Hf. unfold sizes in *.
    repeat (apply Forall_cons in Hf as [? Hf]).
    cbn [map]. repeat (apply Forall2_cons; split; [split; [assumption|reflexivity]|]).
    apply Forall2_nil_2.
  - intros p. rewrite map_map. split.
    + intros (Hne & Hpar & Hsome).
      destruct (decide (p ∈ map (fun entry : Z * string => png_path (snd entry)) sizes))
        as [Hin|Hnin]; [exact Hin|].
      exfalso. apply (Hempty p). split; [done|]. split; [done|].
      rewrite <- (staged_other P); [done|].
      unfold stage_targets. rewrite !not_elem_of_cons. split; [|split; [|done]].
      * intros ->. discriminate.
      * intros ->. discriminate.
    + intros Hin. apply list_elem_of_fmap in Hin as (entry & -> & Hin).
      split; [discriminate|]. split; [reflexivity|].
      pose proof (staged_files P m) as Hf. rewrite Forall_forall in Hf.
      cbn [fst rendition]. rewrite (Hf entry Hin). eauto.
Qed.

Lemma create_iconset_ready (P : Pillow) (os : OS) (m : Machine) :
  stage_ready m = true ->
  create_iconset P os m =
  match package_iconset os (staged P m) with
  | (inl e, m2, t2) => (inl e, m2, stage_trace P ++ t2)
  | (inr (Some b), m2, t2) => (inr b, m2, stage_trace P ++ t2 ++ [])
  | (inr None, m2, t2) =>
      let '(r, m3, t3) := finish_iconset m2 in (r, m3, stage_trace P ++ t2 ++ t3)
  end.
Proof. intros H. by rewrite create_iconset_split, stage_iconset_ready. Qed.

(** Claim C3. When staging went through and the packaging tool exits with a
    status other than zero, [create_iconset] returns [False], the process
    ends with exit status 1 and not with an uncaught exception, nothing is
    removed, and the machine is left as the tool left it: if the tool did not
    touch the staging tree, [icon_temp], [icon_temp/AppIcon.iconset] and the
    ten PNG files are still on disk. *)
Theorem packaging_failure_keeps_staging (P : Pillow) (os : OS) (m m' : Machine)
    (status : Z) :
  pillow_installed m = true ->
  stage_ready m = true ->
  spawn os iconutil_argv (after_staging P m) = Some (status, m') ->
  status <> 0 ->
  (forall p : path, icon_dir `prefix_of` p -> fs m' !! p = fs (after_staging P m) !! p) ->
  exists t : list event,
    create_iconset P os m = (inr false, m', t)
    /\ run_process P os m = (Exit 1, m', t)
    /\ removed t = []
    /\ fs m' !! icon_dir = Some Dir
    /\ fs m' !! iconset_dir = Some Dir
    /\ Forall (fun entry : Z * string =>
                 fs m' !! png_path (snd entry)
                 = Some (File (Png (resize P (create_gradient_icon P)
                                      (fst entry, fst entry))))) sizes.
Proof.
  intros Hpil Hready Hspawn Hstatus Hkeep.
  rewrite after_staging_ready in Hspawn, Hkeep by done.
  assert (Hrun : create_iconset P os m
                 = (inr false, m',
                    stage_trace P ++
                    [EvPrint "📦 Creating .icns file..."; EvSpawn iconutil_argv;
                     EvPrint ("❌ Failed to create .icns file: "
                       +:+ str_exn os (CalledProcessError status iconutil_argv))])).
  { rewrite create_iconset_ready, package_iconset_cases, Hspawn by done.
    rewrite decide_False by done. by rewrite app_nil_r. }
  eexists. split; [exact Hrun|].
  split; [rewrite run_process_installed, Hrun by done; by rewrite app_nil_r|].
  split; [reflexivity|].
  destruct (staged_dirs P m Hready) as [Hd1 Hd2].
  split; [rewrite Hkeep; [done|by exists []]|].
  split; [rewrite Hkeep; [done|by exists ["AppIcon.iconset"]]|].
  eapply Forall_impl; [apply (staged_files P m)|].
  intros [n name] Hf. cbn [fst snd rendition] in *.
  rewrite Hkeep; [done|]. by eexists [_; _].
Qed.

(** Claim C4. When staging went through and the packaging tool exits with
    status zero (leaving [icon_temp] in place), [create_iconset] returns
    [True], the process ends with exit status 0, and afterwards no path at or
    below [icon_temp] exists, while everything else is as the tool left it. *)
Theorem packaging_success_removes_staging (P : Pillow) (os : OS) (m m' : Machine) :
  pillow_installed m = true ->
  stage_ready m = true ->
  spawn os iconutil_argv (after_staging P m) = Some (0, m') ->
  fs m' !! icon_dir = Some Dir ->
  exists (m'' : Machine) (t : list event),
    create_iconset P os m = (inr true, m'', t)
    /\ run_process P os m = (Exit 0, m'', t)
    /\ removed t = [icon_dir]
    /\ (forall p : path, icon_dir `prefix_of` p -> fs m'' !! p = None)
    /\ (forall p : path, ¬ icon_dir `prefix_of` p -> fs m'' !! p = fs m' !! p).
Proof.
  intros Hpil Hready Hspawn Hdir.
  rewrite after_staging_ready in Hspawn by done.
  eexists _, _. split; [|split; [|split; [|split]]].
  - rewrite create_iconset_ready, package_iconset_cases, Hspawn by done.
    rewrite decide_True by done. rewrite finish_iconset_cases, Hdir. reflexivity.
  - rewrite run_process_installed by done.
    rewrite create_iconset_ready, package_iconset_cases, Hspawn by done.
    rewrite decide_True by done. rewrite finish_iconset_cases, Hdir.
    by rewrite app_nil_r.
  - reflexivity.
  - intros p Hp. by apply rmtree_lookup_inside.
  - intros p Hp. by apply rmtree_lookup_outside.
Qed.

(** Claim C8. The command is [iconutil -c icns icon_temp/AppIcon.iconset -o
    AppIcon.icns]; a run of [create_iconset] starts it exactly once when the
    staging phase returned (and never otherwise, nor any other process), so
    there is no retry; and [create_iconset] returns [False] exactly when the
    tool was started and exited with a status other than zero. *)
Theorem iconutil_invoked_once (P : Pillow) (os : OS) (m : Machine) :
  let '(r, _, t) := create_iconset P os m in
  iconutil_argv = ["iconutil"; "-c"; "icns"; "icon_temp/AppIcon.iconset"; "-o"; "AppIcon.icns"]
  /\ spawned t = match fst (fst (stage_iconset P m)) with
                 | inr _ => [iconutil_argv]
                 | inl _ => []
                 end
  /\ (stage_ready m = true -> spawned t = [iconutil_argv])
  /\ (r = inr false <->
      fst (fst (stage_iconset P m)) = inr tt
      /\ exists (status : Z) (m' : Machine),
           spawn os iconutil_argv (after_staging P m) = Some (status, m') /\ status <> 0).
Proof.
  pose proof (create_iconset_log P os m) as Hlog.
  pose proof (stage_iconset_ready P m) as Hready.
  unfold after_staging. rewrite create_iconset_split in *.
  destruct (stage_iconset P m) as [[r1 m1] t1]. cbn [fst snd] in *.
  destruct r1 as [e|[]].
  - destruct Hlog as (_ & _ & Hsp). split; [reflexivity|]. split; [done|].
    split; [intros H; by specialize (Hready H)|].
    split; [done|]. by intros [? _].
  - rewrite package_iconset_cases in *.
    destruct (spawn os iconutil_argv m1) as [[status m']|].
    + destruct (decide (status = 0)) as [->|Hne].
      * destruct (finish_iconset m') as [[r3 m3] t3] eqn:Hfin.
        destruct Hlog as (_ & _ & Hsp). split; [reflexivity|]. split; [done|].
        split; [done|].
        rewrite finish_iconset_cases in Hfin.
        split.
        -- intros ->. destruct (fs m' !! icon_dir) as [[|c]|]; by inversion Hfin.
        -- intros (_ & st & m2 & Heq & Hst). by inversion Heq.
      * destruct Hlog as (_ & _ & Hsp). split; [reflexivity|]. split; [done|].
        split; [done|]. split; [|done]. intros _. split; [done|]. by exists status, m'.
    + destruct Hlog as (_ & _ & Hsp). split; [reflexivity|]. split; [done|].
      split; [done|]. split; [done|]. by intros (_ & st & m2 & Heq & _).
Qed.

(** Claim C5. The resize and save calls of a run alternate in table order:
    for each of the ten entries one resize of the base image to the entry's
    size followed by one save of that result under the entry's name. All ten
    sizes are resized, the repeated ones (32, 256, 512) twice, every time
    from the base image; ten files are saved, under ten different paths. *)
Theorem renditions_in_table_order (P : Pillow) (os : OS) (m : Machine) :
  stage_ready m = true ->
  let '(_, _, t) := create_iconset P os m in
  renders t
  = concat (map (fun entry : Z * string =>
                   [ EvResize (create_gradient_icon P) (fst entry, fst entry);
                     EvSave (png_path (snd entry))
                       (resize P (create_gradient_icon P) (fst entry, fst entry)) ])
              sizes)
  /\ map (fun r : Image RGB * (Z * Z) => snd r) (resized t)
     = map (fun n : Z => (n, n)) [16; 32; 32; 64; 128; 256; 256; 512; 512; 1024]
  /\ Forall (fun r : Image RGB * (Z * Z) => fst r = create_gradient_icon P) (resized t)
  /\ length (saved t) = 10%nat
  /\ NoDup (map fst (saved t)).
Proof.
  intros Hready. rewrite create_iconset_ready, package_iconset_cases by done.
  assert (Hnd : NoDup (map fst (map (rendition P) sizes))).
  { rewrite map_map. apply png_paths_NoDup. }
  assert (Hall : Forall (fun r : Image RGB * (Z * Z) => fst r = create_gradient_icon P)
                   (resized (stage_trace P))).
  { rewrite resized_stage_trace. apply Forall_forall.
    intros r (entry & -> & _)%list_elem_of_fmap. done. }
  destruct (spawn os iconutil_argv (staged P m)) as [[status m']|].
  - destruct (decide (status = 0)).
    + rewrite finish_iconset_cases.
      destruct (fs m' !! icon_dir) as [[|c]|]; (split; [reflexivity|]);
        (split; [reflexivity|]); (split; [exact Hall|]); (split; [reflexivity|exact Hnd]).
    + split; [reflexivity|]. split; [reflexivity|]. split; [exact Hall|].
      split; [reflexivity|exact Hnd].
  - split; [reflexivity|]. split; [reflexivity|]. split; [exact Hall|].
    split; [reflexivity|exact Hnd].
Qed.

(** ** The import guard *)

Lemma import_guard_cases (os : OS) (m : Machine) :
  import_guard os m =
  if pillow_installed m then (inr tt, m, [])
  else
    match spawn os (pip_argv os) m with
    | None =>
        (inl FileNotFoundError, m,
         [EvPrint "⚠️  Pillow not found. Installing..."; EvSpawn (pip_argv os)])
    | Some (status, m1) =>
        if decide (status = 0)
        then (if pillow_installed m1 then inr tt else inl ImportError, m1,
              [EvPrint "⚠️  Pillow not found. Installing..."; EvSpawn (pip_argv os)])
        else (inl (CalledProcessError status (pip_argv os)), m1,
              [EvPrint "⚠️  Pillow not found. Installing..."; EvSpawn (pip_argv os)])
    end.
Proof.
  unfold import_guard, try_except, import_PIL at 1.
  destruct (pillow_installed m); [reflexivity|].
  unfold print.
  rewrite (bind_inr _ _ m m tt [EvPrint "⚠️  Pillow not found. Installing..."]) by done.
  unfold bind at 1. rewrite subprocess_run_cases.
  destruct (spawn os (pip_argv os) m) as [[status m1]|]; [|reflexivity].
  destruct (decide (status = 0)); [|reflexivity].
  unfold import_PIL. destruct (pillow_installed m1); reflexivity.
Qed.


(** The process ends as the module body does. *)
Lemma run_process_split (P : Pillow) (os : OS) (m : Machine) :
  run_process P os m =
  match import_guard os m with
  | (inl (SystemExit code), m1, t1) => (Exit code, m1, t1)
  | (inl e, m1, t1) => (Uncaught e, m1, t1)
  | (inr _, m1, t1) =>
      match create_iconset P os m1 with
      | (inl (SystemExit code), m2, t2) => (Exit code, m2, t1 ++ t2)
      | (inl e, m2, t2) => (Uncaught e, m2, t1 ++ t2)
      | (inr b, m2, t2) => (Exit (if b : bool then 0 else 1), m2, t1 ++ t2 ++ [])
      end
  end.
Proof.
  unfold run_process, script. unfold bind at 1.
  destruct (import_guard os m) as [[[e|[]] m1] t1]; [by destruct e|].
  unfold main, bind, sys_exit, raise.
  destruct (create_iconset P os m1) as [[[e|b] m2] t2]; [by destruct e|].
  reflexivity.
Qed.



Lemma Path_mkdir_strict (p : path) (m : Machine) :
  Path_mkdir p false m =
  match stat m (parent p) with
  | None => (inl FileNotFoundError, m, [EvMkdir p])
  | Some (File _) => (inl NotADirectoryError, m, [EvMkdir p])
  | Some Dir =>
      match stat m p with
      | None => (inr tt, set_fs (insert p Dir) m, [EvMkdir p])
      | Some _ => (inl FileExistsError, m, [EvMkdir p])
      end
  end.
Proof.
  unfold Path_mkdir, bind, emit, check_parent.
  destruct (stat m (parent p)) as [[|c]|]; try reflexivity.
  destruct (stat m p) as [[|c]|]; reflexivity.
Qed.

Lemma stage_iconset_leftover (P : Pillow) (m : Machine) :
  leftover_tree m ->
  stage_iconset P m =
  let '(r, m', t) := for_each sizes (write_rendition P (create_gradient_icon P)) m in
  (r, m',
   [ EvPrint "🎨 Creating Momentum app icon...";
     EvPrint "📐 Generating base icon (1024x1024)...";
     EvMkdir icon_dir;
     EvMkdir iconset_dir;
     EvPrint "✨ Creating icon set with all required sizes..." ] ++ t).
Proof.
  intros [H1 H2]. unfold stage_iconset, print.
  rewrite (bind_inr _ _ m m tt [EvPrint "🎨 Creating Momentum app icon..."]) by done.
  rewrite (bind_inr _ _ m m tt [EvPrint "📐 Generating base icon (1024x1024)..."]) by done.
  rewrite (bind_inr _ _ m m tt [EvMkdir icon_dir]).
  2:{ rewrite Path_mkdir_exist_ok. change (stat m (parent icon_dir)) with (Some Dir).
      change (stat m icon_dir) with (fs m !! icon_dir). by rewrite H1. }
  rewrite (bind_inr _ _ m m tt [EvMkdir iconset_dir]).
  2:{ rewrite Path_mkdir_exist_ok. change (stat m (parent iconset_dir)) with (fs m !! icon_dir).
      change (stat m iconset_dir) with (fs m !! iconset_dir). by rewrite H1, H2. }
  rewrite (bind_inr _ _ m m tt
             [EvPrint "✨ Creating icon set with all required sizes..."]) by done.
  destruct (for_each sizes _ m) as [[r m'] t]. reflexivity.
Qed.

(** Claim C10. On a machine where [icon_temp] and [icon_temp/AppIcon.iconset]
    are left over as directories, both [mkdir(exist_ok=True)] calls return
    normally and change nothing (without [exist_ok] each would raise
    [FileExistsError]); the staging phase removes nothing, keeps every entry
    that existed, leaves every path other than the ten rendition paths as it
    was, and returns normally unless a rendition path is a directory. *)
Theorem leftover_staging_reused (P : Pillow) (m : Machine) :
  leftover_tree m ->
  Path_mkdir icon_dir true m = (inr tt, m, [EvMkdir icon_dir])
  /\ Path_mkdir iconset_dir true m = (inr tt, m, [EvMkdir iconset_dir])
  /\ fst (fst (Path_mkdir icon_dir false m)) = inl FileExistsError
  /\ fst (fst (Path_mkdir iconset_dir false m)) = inl FileExistsError
  /\ (let '(r, m', t) := stage_iconset P m in
      removed t = []
      /\ (forall p : path, is_Some (fs m !! p) -> is_Some (fs m' !! p))
      /\ (forall p : path,
            p ∉ map (fun entry : Z * string => png_path (snd entry)) sizes ->
            fs m' !! p = fs m !! p)
      /\ (Forall (fun entry : Z * string => fs m !! png_path (snd entry) <> Some Dir) sizes ->
          r = inr tt)).
Proof.
  intros Hleft. pose proof Hleft as [H1 H2].
  assert (Hs1 : stat m icon_dir = Some Dir) by exact H1.
  assert (Hs2 : stat m iconset_dir = Some Dir) by exact H2.
  assert (Hp1 : stat m (parent icon_dir) = Some Dir) by reflexivity.
  assert (Hp2 : stat m (parent iconset_dir) = Some Dir) by exact H1.
  split; [by rewrite Path_mkdir_exist_ok, Hp1, Hs1|].
  split; [by rewrite Path_mkdir_exist_ok, Hp2, Hs2|].
  split; [by rewrite Path_mkdir_strict, Hp1, Hs1|].
  split; [by rewrite Path_mkdir_strict, Hp2, Hs2|].
  rewrite stage_iconset_leftover by done.
  pose proof (for_each_renditions_post P sizes m) as Hpost.
  pose proof (for_each_renditions_ready P sizes m H2) as Hready.
  destruct (for_each sizes _ m) as [[r m'] t].
  destruct Hpost as (Hpre & [_ Hg] & _).
  split; [|split; [|split]].
  - assert (Hrm : removed t = []).
    { apply prefix_nil_inv.
      assert (Hnone : removed (concat (map (rendition_events P) sizes)) = [])
        by reflexivity.
      rewrite <- Hnone. by apply omap_prefix. }
    unfold removed in *. rewrite omap_app, Hrm. reflexivity.
  - intros p. apply (Hg p).
  - intros p. apply (Hg p).
  - intros Hall. specialize (Hready Hall). by inversion Hready.
Qed.

(** ** The overlay *)

Lemma lookup_map {A B} (f : A -> B) (l : list A) (i : nat) :
  map f l !! i = f <$> l !! i.
Proof. revert i. induction l as [|a l IH]; intros [|i]; simpl; auto. Qed.

Lemma getpixel_Image_new {px} (w h x y : Z) (c : px) :
  0 <= x < w -> 0 <= y < h -> getpixel (Image_new (w, h) c) x y = Some c.
Proof.
  intros Hx Hy. unfold getpixel, Image_new. rewrite decide_True by lia. simpl.
  rewrite lookup_replicate_2 by lia. simpl. by rewrite lookup_replicate_2 by lia.
Qed.

Lemma getpixel_convert_RGBA (im : Image RGB) (x y : Z) :
  getpixel (convert_RGBA im) x y
  = (fun p : RGB => let '(r, g, b) := p in (r, g, b, 255)) <$> getpixel im x y.
Proof.
  unfold getpixel, convert_RGBA. destruct (decide (0 <= x /\ 0 <= y)); [|done].
  simpl. rewrite lookup_map. destruct (im_rows im !! Z.to_nat y) as [row|]; [|done].
  simpl. apply lookup_map.
Qed.

Lemma getpixel_convert_RGB (im : Image RGBA) (x y : Z) :
  getpixel (convert_RGB im) x y
  = (fun p : RGBA => let '(r, g, b, _) := p in (r, g, b)) <$> getpixel im x y.
Proof.
  unfold getpixel, convert_RGB. destruct (decide (0 <= x /\ 0 <= y)); [|done].
  simpl. rewrite lookup_map. destruct (im_rows im !! Z.to_nat y) as [row|]; [|done].
  simpl. apply lookup_map.
Qed.

(** Claim C6. [create_gradient_icon] is the RGB conversion of the alpha
    composite of the RGBA-converted gradient with an overlay obtained from a
    1024x1024 canvas, transparent at every pixel, by drawing first the
    polygon (512,200), (350,800), (512,700), (674,800) with fill
    (255,255,255,230), outline (255,255,255,255) and width 8, then the polygon
    (512,300), (420,700), (512,600), (604,700) with fill (255,255,255,180) and
    no outline. The backdrop handed to the compositing is opaque, and each
    pixel of the result is the composite's pixel without its alpha. *)
Theorem flame_overlay_composition (P : Pillow) (x y : Z) :
  0 <= x < 1024 -> 0 <= y < 1024 ->
  create_gradient_icon P
  = convert_RGB
      (alpha_composite P
         (convert_RGBA (gradient_background 1024))
         (polygon P
            (polygon P (blank_overlay 1024)
               [(512, 200); (350, 800); (512, 700); (674, 800)]
               (Some (255, 255, 255, 230)) (Some (255, 255, 255, 255)) 8)
            [(512, 300); (420, 700); (512, 600); (604, 700)]
            (Some (255, 255, 255, 180)) None 1))
  /\ im_size (blank_overlay 1024) = (1024, 1024)
  /\ getpixel (blank_overlay 1024) x y = Some (0, 0, 0, 0)
  /\ (exists r g b : Z,
        scanline_color 1024 y = (r, g, b)
        /\ getpixel (convert_RGBA (gradient_background 1024)) x y = Some (r, g, b, 255))
  /\ getpixel (create_gradient_icon P) x y
     = (fun p : RGBA => let '(r, g, b, _) := p in (r, g, b))
         <$> getpixel (alpha_composite P (convert_RGBA (gradient_background 1024))
                         (flame_overlay P 1024)) x y.
Proof.
  intros Hx Hy. split; [reflexivity|]. split; [reflexivity|].
  split; [by apply getpixel_Image_new|]. split.
  - destruct (scanline_color 1024 y) as [[r g] b] eqn:E. exists r, g, b. split; [done|].
    rewrite getpixel_convert_RGBA, getpixel_gradient_background by done.
    rewrite E. reflexivity.
  - unfold create_gradient_icon. apply getpixel_convert_RGB.
Qed.

(** How a run ends, read off the module body. *)
Lemma run_process_end (P : Pillow) (os : OS) (m : Machine) :
  fst (fst (run_process P os m)) =
  match fst (fst (import_guard os m)) with
  | inl (SystemExit code) => Exit code
  | inl e => Uncaught e
  | inr _ =>
      match fst (fst (create_iconset P os (snd (fst (import_guard os m))))) with
      | inl (SystemExit code) => Exit code
      | inl e => Uncaught e
      | inr b => Exit (if b : bool then 0 else 1)
      end
  end.
Proof.
  rewrite run_process_split.
  destruct (import_guard os m) as [[[e|[]] m1] t1]; [by destruct e|]. cbn [fst snd].
  destruct (create_iconset P os m1) as [[[e|b] m2] t2]; [by destruct e|done].
Qed.

(** Claim C7, as amended. Two faults are handled: a missing Pillow, which
    the import guard answers by installing it with pip and importing again,
    and the packaging tool exiting with a status other than zero, which makes
    [create_iconset] return [False]. Every other fault ends the process with
    an uncaught exception: pip that cannot be started or fails, Pillow still
    missing after pip, an OS error while staging, a packaging tool that
    cannot be started, and a failing removal of the staging tree. *)
Theorem handled_and_unhandled_faults (P : Pillow) (os : OS) (m : Machine) :
  (pillow_installed m = false ->
   forall m1 : Machine,
     spawn os (pip_argv os) m = Some (0, m1) -> pillow_installed m1 = true ->
     import_guard os m
     = (inr tt, m1, [EvPrint "⚠️  Pillow not found. Installing..."; EvSpawn (pip_argv os)]))
  /\ (forall (status : Z) (m' : Machine),
        spawn os iconutil_argv m = Some (status, m') -> status <> 0 ->
        fst (fst (package_iconset os m)) = inr (Some false))
  /\ (pillow_installed m = false -> spawn os (pip_argv os) m = None ->
      fst (fst (run_process P os m)) = Uncaught FileNotFoundError)
  /\ (pillow_installed m = false ->
      forall (status : Z) (m1 : Machine),
        spawn os (pip_argv os) m = Some (status, m1) -> status <> 0 ->
        fst (fst (run_process P os m)) = Uncaught (CalledProcessError status (pip_argv os)))
  /\ (pillow_installed m = false ->
      forall m1 : Machine,
        spawn os (pip_argv os) m = Some (0, m1) -> pillow_installed m1 = false ->
        fst (fst (run_process P os m)) = Uncaught ImportError)
  /\ (pillow_installed m = true ->
      forall e : exn,
        fst (fst (stage_iconset P m)) = inl e ->
        is_os_error e = true /\ fst (fst (run_process P os m)) = Uncaught e)
  /\ (pillow_installed m = true ->
      fst (fst (stage_iconset P m)) = inr tt ->
      spawn os iconutil_argv (after_staging P m) = None ->
      fst (fst (run_process P os m)) = Uncaught FileNotFoundError)
  /\ (pillow_installed m = true ->
      fst (fst (stage_iconset P m)) = inr tt ->
      forall m' : Machine,
        spawn os iconutil_argv (after_staging P m) = Some (0, m') ->
        fs m' !! icon_dir <> Some Dir ->
        exists e : exn,
          is_os_error e = true /\ fst (fst (run_process P os m)) = Uncaught e).
Proof.
  split; [|split; [|split; [|split; [|split; [|split; [|split]]]]]].
  - intros Hpil m1 Hpip Hm1. rewrite import_guard_cases, Hpil, Hpip.
    rewrite decide_True by done. by rewrite Hm1.
  - intros status m' Hsp Hst. rewrite package_iconset_cases, Hsp.
    by rewrite decide_False by done.
  - intros Hpil Hpip. by rewrite run_process_end, import_guard_cases, Hpil, Hpip.
  - intros Hpil status m1 Hpip Hst.
    rewrite run_process_end, import_guard_cases, Hpil, Hpip.
    by rewrite decide_False by done.
  - intros Hpil m1 Hpip Hm1. rewrite run_process_end, import_guard_cases, Hpil, Hpip.
    rewrite decide_True by done. by rewrite Hm1.
  - intros Hpil e Hst.
    rewrite run_process_end, import_guard_installed by done. cbn [fst snd].
    rewrite create_iconset_split.
    pose proof (stage_iconset_post P m) as Hpost.
    destruct (stage_iconset P m) as [[r1 m1] t1]. destruct Hpost as (_ & _ & Hr).
    cbn [fst] in Hst. subst r1. cbn [fst]. split; [done|]. by destruct e.
  - intros Hpil Hst Hsp. rewrite run_process_end, import_guard_installed by done.
    cbn [fst snd]. rewrite create_iconset_split. unfold after_staging in Hsp.
    destruct (stage_iconset P m) as [[r1 m1] t1]. cbn [fst snd] in *. subst r1.
    by rewrite package_iconset_cases, Hsp.
  - intros Hpil Hst m' Hsp Hdir. unfold after_staging in Hsp.
    assert (Hend : fst (fst (run_process P os m)) =
                   match fs m' !! icon_dir with
                   | None => Uncaught FileNotFoundError
                   | Some (File _) => Uncaught NotADirectoryError
                   | Some Dir => Exit 0
                   end).
    { rewrite run_process_end, import_guard_installed by done.
      cbn [fst snd]. rewrite create_iconset_split.
      destruct (stage_iconset P m) as [[r1 m1] t1]. cbn [fst snd] in *. subst r1.
      rewrite package_iconset_cases, Hsp. rewrite decide_True by done.
      rewrite finish_iconset_cases. by destruct (fs m' !! icon_dir) as [[|c]|]. }
    rewrite Hend. destruct (fs m' !! icon_dir) as [[|c]|]; [done| |].
    + by exists NotADirectoryError.
    + by exists FileNotFoundError.
Qed.

(** A run that starts without Pillow and ends well. *)
Lemma run_process_installing (P : Pillow) (os : OS) (m m1 m2 : Machine) :
  pillow_installed m = false ->
  spawn os (pip_argv os) m = Some (0, m1) ->
  pillow_installed m1 = true ->
  stage_ready m1 = true ->
  spawn os iconutil_argv (staged P m1) = Some (0, m2) ->
  fs m2 !! icon_dir = Some Dir ->
  fst (fst (run_process P os m)) = Exit 0.
Proof.
  intros Hpil Hpip Hm1 Hready Hsp Hdir.
  rewrite run_process_end, import_guard_cases, Hpil, Hpip.
  rewrite decide_True by done. rewrite Hm1. cbn [fst snd].
  rewrite create_iconset_ready, package_iconset_cases, Hsp by done.
  rewrite decide_True by done. by rewrite finish_iconset_cases, Hdir.
Qed.

(** Claim C7 as stated fails: started without Pillow, with a working pip
    and packaging tool, the process ends with exit status 0 and not with an
    uncaught exception. *)
Lemma missing_pillow_is_handled :
  pillow_installed (Samples.fresh false) = false
  /\ fst (fst (run_process Samples.pillow Samples.os_working (Samples.fresh false))) = Exit 0
  /\ ¬ (forall (P : Pillow) (os : OS) (m : Machine),
          pillow_installed m = false ->
          exists e : exn, fst (fst (run_process P os m)) = Uncaught e).
Proof.
  assert (Hrun : fst (fst (run_process Samples.pillow Samples.os_working
                             (Samples.fresh false))) = Exit 0).
  { eapply (run_process_installing _ _ _ (mkMachine ∅ true)).
    - reflexivity.
    - reflexivity.
    - reflexivity.
    - vm_compute. reflexivity.
    - reflexivity.
    - simpl. rewrite lookup_insert_ne by discriminate.
      apply staged_dirs. vm_compute. reflexivity. }
  split; [reflexivity|]. split; [exact Hrun|].
  intros Hall.
  destruct (Hall Samples.pillow Samples.os_working (Samples.fresh false) eq_refl) as [e He].
  rewrite Hrun in He. discriminate.
Qed.

(** ** The theorems at work on sample machines *)

Lemma fresh_ready (pil : bool) : stage_ready (Samples.fresh pil) = true.
Proof. destruct pil; vm_compute; reflexivity. Qed.

Lemma gradient_scanlines_witness :
  0 <= 5 < icon_size /\ 0 <= 1023 < icon_size
  /\ getpixel (gradient_background icon_size) 5 0 = Some start_color
  /\ (exists c, getpixel (gradient_background icon_size) 5 (icon_size - 1) = Some c
                /\ c = (6, 182, 211) /\ within_rounding c end_color)
  /\ getpixel (gradient_background icon_size) 5 1023 = Some (scanline_color icon_size 1023)
  /\ im_size (gradient_background icon_size) = (1024, 1024).
Proof.
  assert (H1 : 0 <= 5 < icon_size) by (unfold icon_size; lia).
  assert (H2 : 0 <= 1023 < icon_size) by (unfold icon_size; lia).
  split; [exact H1|]. split; [exact H2|].
  exact (gradient_scanlines 5 1023 H1 H2).
Defined.

Lemma ten_renditions_witness :
  stage_ready (Samples.fresh true) = true
  /\ (forall p : path, ¬ inside (Samples.fresh true) iconset_dir p)
  /\ fst (fst (stage_iconset Samples.pillow (Samples.fresh true))) = inr tt
  /\ length (saved (snd (stage_iconset Samples.pillow (Samples.fresh true)))) = 10%nat.
Proof.
  assert (H1 : stage_ready (Samples.fresh true) = true) by (vm_compute; reflexivity).
  assert (H2 : forall p : path, ¬ inside (Samples.fresh true) iconset_dir p).
  { intros p (_ & _ & [x Hx]). simpl in Hx. by rewrite lookup_empty in Hx. }
  split; [exact H1|]. split; [exact H2|].
  pose proof (ten_renditions Samples.pillow (Samples.fresh true) H1 H2) as H.
  destruct (stage_iconset Samples.pillow (Samples.fresh true)) as [[r m'] t].
  destruct H as (Hr & Hpaths & _). cbn [fst snd]. split; [exact Hr|].
  rewrite <- (length_map fst), Hpaths. reflexivity.
Defined.

Lemma packaging_failure_keeps_staging_witness :
  pillow_installed (Samples.fresh true) = true
  /\ stage_ready (Samples.fresh true) = true
  /\ spawn Samples.os_failing iconutil_argv (after_staging Samples.pillow (Samples.fresh true))
     = Some (1, after_staging Samples.pillow (Samples.fresh true))
  /\ 1 <> 0
  /\ (forall p : path,
        icon_dir `prefix_of` p ->
        fs (after_staging Samples.pillow (Samples.fresh true)) !! p
        = fs (after_staging Samples.pillow (Samples.fresh true)) !! p)
  /\ exists t : list event,
       run_process Samples.pillow Samples.os_failing (Samples.fresh true)
       = (Exit 1, after_staging Samples.pillow (Samples.fresh true), t)
       /\ fs (after_staging Samples.pillow (Samples.fresh true)) !! icon_dir = Some Dir.
Proof.
  assert (H1 : stage_ready (Samples.fresh true) = true) by (vm_compute; reflexivity).
  assert (H2 : (1 : Z) <> 0) by lia.
  split; [reflexivity|]. split; [exact H1|]. split; [reflexivity|]. split; [exact H2|].
  split; [reflexivity|].
  destruct (packaging_failure_keeps_staging Samples.pillow Samples.os_failing
              (Samples.fresh true) (after_staging Samples.pillow (Samples.fresh true)) 1
              eq_refl H1 eq_refl H2 (fun p _ => eq_refl))
    as (t & _ & Hrun & _ & Hdir & _).
  exists t. split; [exact Hrun|exact Hdir].
Defined.

Lemma packaging_success_removes_staging_witness :
  pillow_installed (Samples.fresh true) = true
  /\ stage_ready (Samples.fresh true) = true
  /\ spawn Samples.os_working iconutil_argv (after_staging Samples.pillow (Samples.fresh true))
     = Some (0, set_fs (insert ["AppIcon.icns"] (File (Bytes "icns")))
                  (after_staging Samples.pillow (Samples.fresh true)))
  /\ fs (set_fs (insert ["AppIcon.icns"] (File (Bytes "icns")))
           (after_staging Samples.pillow (Samples.fresh true))) !! icon_dir = Some Dir
  /\ exists (m'' : Machine) (t : list event),
       run_process Samples.pillow Samples.os_working (Samples.fresh true) = (Exit 0, m'', t)
       /\ fs m'' !! icon_dir = None
       /\ fs m'' !! iconset_dir = None
       /\ fs m'' !! ["AppIcon.icns"] = Some (File (Bytes "icns")).
Proof.
  assert (H1 : stage_ready (Samples.fresh true) = true) by (vm_compute; reflexivity).
  assert (Hdir : fs (set_fs (insert ["AppIcon.icns"] (File (Bytes "icns")))
                       (after_staging Samples.pillow (Samples.fresh true))) !! icon_dir
                 = Some Dir).
  { simpl. rewrite lookup_insert_ne by discriminate.
    rewrite after_staging_ready by exact H1. by apply staged_dirs. }
  split; [reflexivity|]. split; [exact H1|]. split; [reflexivity|]. split; [exact Hdir|].
  destruct (packaging_success_removes_staging Samples.pillow Samples.os_working
              (Samples.fresh true) _ eq_refl H1 eq_refl Hdir)
    as (m'' & t & _ & Hrun & _ & Hin & Hout).
  exists m'', t. split; [exact Hrun|]. split; [|split].
  - apply Hin. by exists [].
  - apply Hin. by exists ["AppIcon.iconset"].
  - rewrite Hout.
    + simpl. by rewrite lookup_insert_eq.
    + intros [k Hk]. discriminate.
Defined.

Lemma renditions_in_table_order_witness :
  stage_ready (Samples.fresh true) = true
  /\ length (saved (snd (create_iconset Samples.pillow Samples.os_failing
                           (Samples.fresh true)))) = 10%nat.
Proof.
  assert (H1 : stage_ready (Samples.fresh true) = true) by (vm_compute; reflexivity).
  split; [exact H1|].
  pose proof (renditions_in_table_order Samples.pillow Samples.os_failing
                (Samples.fresh true) H1) as H.
  destruct (create_iconset Samples.pillow Samples.os_failing (Samples.fresh true))
    as [[r m'] t].
  destruct H as (_ & _ & _ & Hlen & _). exact Hlen.
Defined.

Lemma iconutil_invoked_once_witness :
  stage_ready (Samples.fresh true) = true
  /\ spawned (snd (create_iconset Samples.pillow Samples.os_failing (Samples.fresh true)))
     = [iconutil_argv].
Proof.
  assert (H1 : stage_ready (Samples.fresh true) = true) by (vm_compute; reflexivity).
  split; [exact H1|].
  pose proof (iconutil_invoked_once Samples.pillow Samples.os_failing (Samples.fresh true))
    as H.
  destruct (create_iconset Samples.pillow Samples.os_failing (Samples.fresh true))
    as [[r m'] t].
  destruct H as (_ & _ & Hsp & _). exact (Hsp H1).
Defined.


Lemma leftover_staging_reused_witness :
  leftover_tree Samples.littered
  /\ Path_mkdir icon_dir true Samples.littered
     = (inr tt, Samples.littered, [EvMkdir icon_dir])
  /\ fst (fst (Path_mkdir icon_dir false Samples.littered)) = inl FileExistsError.
Proof.
  assert (H1 : leftover_tree Samples.littered) by (split; vm_compute; reflexivity).
  split; [exact H1|].
  destruct (leftover_staging_reused Samples.pillow Samples.littered H1)
    as (Ha & _ & Hb & _).
  split; [exact Ha|exact Hb].
Defined.

Lemma flame_overlay_composition_witness :
  0 <= 512 < 1024 /\ 0 <= 300 < 1024
  /\ getpixel (blank_overlay 1024) 512 300 = Some (0, 0, 0, 0).
Proof.
  assert (H1 : 0 <= 512 < 1024) by lia.
  assert (H2 : 0 <= 300 < 1024) by lia.
  split; [exact H1|]. split; [exact H2|].
  exact (proj1 (proj2 (proj2 (flame_overlay_composition Samples.pillow 512 300 H1 H2)))).
Defined.

Lemma handled_and_unhandled_faults_witness :
  pillow_installed (Samples.fresh false) = false
  /\ spawn Samples.os_working (pip_argv Samples.os_working) (Samples.fresh false)
     = Some (0, Samples.fresh true)
  /\ import_guard Samples.os_working (Samples.fresh false)
     = (inr tt, Samples.fresh true,
        [EvPrint "⚠️  Pillow not found. Installing...";
         EvSpawn (pip_argv Samples.os_working)])
  /\ fst (fst (run_process Samples.pillow Samples.os_bare (Samples.fresh false)))
     = Uncaught FileNotFoundError.
Proof.
  split; [reflexivity|]. split; [reflexivity|].
  pose proof (handled_and_unhandled_faults Samples.pillow Samples.os_working
                (Samples.fresh false)) as (Hguard & _).
  pose proof (handled_and_unhandled_faults Samples.pillow Samples.os_bare
                (Samples.fresh false)) as (_ & _ & Hbare & _).
  split.
  - exact (Hguard eq_refl (Samples.fresh true) eq_refl eq_refl).
  - exact (Hbare eq_refl eq_refl).
Defined.

(** * Further properties of the script *)

(** Property X1. On every scanline of the base image the red channel lies
    in 6..16, the green one in 182..185 and the blue one in 129..211: the
    colours are valid bytes that stay between the two end points, and the
    blue of the end colour, 212, is never reached. *)
Theorem scanline_color_range (y : Z) :
  0 <= y < icon_size ->
  let '(r, g, b) := scanline_color icon_size y in
  6 <= r <= 16 /\ 182 <= g <= 185 /\ 129 <= b <= 211.
Proof.
  unfold icon_size. intros Hy. rewrite scanline_color_1024.
  rewrite !Z.quot_div_nonneg by lia. cbv beta iota.
  assert (Hr : (16384 - 10 * y) / 1024 < 17) by (apply Z.div_lt_upper_bound; lia).
  assert (Hg : (189440 - 3 * y) / 1024 < 186) by (apply Z.div_lt_upper_bound; lia).
  assert (Hb : (132096 + 83 * y) / 1024 < 212) by (apply Z.div_lt_upper_bound; lia).
  repeat split; first [apply Z.div_le_lower_bound; lia | lia].
Qed.

(** Property X2. Going down the image, red and green never increase and
    blue never decreases: truncating each scanline's colour to integers
    keeps the gradient monotone. *)
Theorem scanline_color_monotone (y1 y2 : Z) :
  0 <= y1 -> y1 <= y2 -> y2 < icon_size ->
  let '(r1, g1, b1) := scanline_color icon_size y1 in
  let '(r2, g2, b2) := scanline_color icon_size y2 in
  r2 <= r1 /\ g2 <= g1 /\ b1 <= b2.
Proof.
  unfold icon_size. intros H1 H12 H2. rewrite !scanline_color_1024.
  rewrite !Z.quot_div_nonneg by lia. cbv beta iota.
  repeat split; apply Z.div_le_mono; lia.
Qed.

(** Property X3. For any size the gradient loop yields a square raster of
    that size: [size] rows of [size] pixels each. A pixel inside has its
    scanline's colour and a position outside has no pixel, so the end point
    [x = size] each line is asked to reach is clipped, and none of the
    initial black remains. *)
Theorem gradient_background_shape (size x y : Z) :
  0 <= size ->
  im_size (gradient_background size) = (size, size)
  /\ length (im_rows (gradient_background size)) = Z.to_nat size
  /\ Forall (fun row : list RGB => length row = Z.to_nat size)
       (im_rows (gradient_background size))
  /\ (getpixel (gradient_background size) x y
      = if decide (0 <= x < size /\ 0 <= y < size)
        then Some (scanline_color size y) else None).
Proof.
  intros Hs. split; [by apply gradient_background_size|].
  rewrite gradient_background_rows by done.
  split; [by rewrite length_fmap, length_seqZ|]. split.
  - apply Forall_fmap, Forall_forall. intros z _. simpl. apply length_replicate.
  - destruct (decide (0 <= x < size /\ 0 <= y < size)) as [[Hx Hy]|Hout].
    + by apply getpixel_gradient_background.
    + unfold getpixel. destruct (decide (0 <= x /\ 0 <= y)) as [[Hx Hy]|]; [|done].
      rewrite gradient_background_rows by done.
      rewrite list_lookup_fmap.
      destruct (decide (y < size)) as [Hlt|Hge].
      * rewrite lookup_seqZ_lt by lia. simpl.
        apply lookup_replicate_None. lia.
      * rewrite lookup_seqZ_ge by lia. done.
Qed.

(** Property X5. On any machine, whether it returns or raises, the staging
    phase only adds: every entry that existed still exists, nothing outside
    the two staging directories and the ten rendition paths changes, the
    installed packages are untouched, no process is started and nothing is
    removed; the files it tried to save are an initial part of the table,
    all of it if it returns, and what it raises is an OS error. *)
Theorem staging_only_grows (P : Pillow) (m : Machine) :
  let '(r, m', t) := stage_iconset P m in
  pillow_installed m' = pillow_installed m
  /\ (forall p : path, is_Some (fs m !! p) -> is_Some (fs m' !! p))
  /\ (forall p : path, p ∉ stage_targets -> fs m' !! p = fs m !! p)
  /\ spawned t = [] /\ removed t = []
  /\ saved t `prefix_of` map (rendition P) sizes
  /\ match r with
     | inl e => is_os_error e = true
     | inr _ => saved t = map (rendition P) sizes
     end.
Proof.
  pose proof (stage_iconset_post P m) as H.
  destruct (stage_iconset P m) as [[r m'] t]. destruct H as (Hpre & [Hpil Hg] & Hr).
  split; [exact Hpil|]. split; [intros p; apply (Hg p)|]. split; [intros p; apply (Hg p)|].
  split; [|split; [|split]].
  - apply prefix_nil_inv. rewrite <- (spawned_stage_trace P). by apply omap_prefix.
  - apply prefix_nil_inv. rewrite <- (removed_stage_trace P). by apply omap_prefix.
  - rewrite <- saved_stage_trace. by apply omap_prefix.
  - destruct r as [e|[]]; [exact Hr|]. by rewrite Hr, saved_stage_trace.
Qed.

Lemma for_each_renditions_ok_inv (P : Pillow) (l : list (Z * string)) (m : Machine) :
  NoDup (map (fun entry : Z * string => png_path (snd entry)) l) ->
  fst (fst (for_each l (write_rendition P (create_gradient_icon P)) m)) = inr tt ->
  Forall (fun entry : Z * string => fs m !! png_path (snd entry) <> Some Dir) l.
Proof.
  revert m. induction l as [|entry l IH]; intros m Hnd Hok; [constructor|].
  cbn [map] in Hnd. apply NoDup_cons in Hnd as [Hnot Hnd].
  cbn [for_each] in Hok. unfold bind at 1 in Hok.
  rewrite write_rendition_cases, Image_save_cases in Hok.
  destruct entry as [n name]. cbn [rendition fst snd] in *.
  destruct (stat m (parent (png_path name))) as [[|c]|]; [|done..].
  change (stat m (png_path name)) with (fs m !! png_path name) in Hok.
  assert (Hhead : fs m !! png_path name <> Some Dir).
  { intros Heq. rewrite Heq in Hok. done. }
  constructor; [exact Hhead|].
  assert (Htail : fst (fst (for_each l (write_rendition P (create_gradient_icon P))
                              (written P m (n, name)))) = inr tt).
  { destruct (fs m !! png_path name) as [[|c]|]; [done| |];
      unfold written; cbn [rendition fst snd];
      destruct (for_each l _ _) as [[[e|[]] m2] t2]; done. }
  specialize (IH _ Hnd Htail).
  apply Forall_forall. intros e He. rewrite Forall_forall in IH. specialize (IH e He).
  simpl in IH. rewrite lookup_insert_ne in IH; [done|].
  intros Heq. apply Hnot. rewrite Heq. apply list_elem_of_fmap. by exists e.
Qed.

Lemma stage_ready_intro (m : Machine) :
  absent_or_dir (fs m !! icon_dir) = true ->
  absent_or_dir (fs m !! iconset_dir) = true ->
  Forall (fun entry : Z * string => fs m !! png_path (snd entry) <> Some Dir) sizes ->
  stage_ready m = true.
Proof.
  intros H1 H2 H3. unfold stage_ready. rewrite H1, H2. cbn [andb].
  apply forallb_forall. intros e He%list_elem_of_In.
  rewrite Forall_forall in H3. specialize (H3 e He).
  by destruct (fs m !! png_path e.2) as [[|c]|].
Qed.

(** Property X6. The staging phase returns normally exactly when
    [icon_temp] and [icon_temp/AppIcon.iconset] are each absent or a
    directory and none of the ten rendition paths is a directory. *)
Theorem staging_returns_iff_ready (P : Pillow) (m : Machine) :
  fst (fst (stage_iconset P m)) = inr tt <-> stage_ready m = true.
Proof.
  split; [|intros H; by rewrite stage_iconset_ready].
  unfold stage_iconset, print.
  rewrite (bind_inr _ _ m m tt [EvPrint "🎨 Creating Momentum app icon..."]) by done.
  rewrite (bind_inr _ _ m m tt [EvPrint "📐 Generating base icon (1024x1024)..."]) by done.
  unfold bind at 1. rewrite Path_mkdir_exist_ok.
  change (stat m (parent icon_dir)) with (Some Dir).
  change (stat m icon_dir) with (fs m !! icon_dir).
  destruct (fs m !! icon_dir) as [[|c]|] eqn:E1; [| done |].
  - unfold bind at 1. rewrite Path_mkdir_exist_ok.
    change (stat m (parent iconset_dir)) with (fs m !! icon_dir). rewrite E1.
    change (stat m iconset_dir) with (fs m !! iconset_dir).
    destruct (fs m !! iconset_dir) as [[|c]|] eqn:E2; [| done |].
    + rewrite (bind_inr _ _ m m tt
                 [EvPrint "✨ Creating icon set with all required sizes..."]) by done.
      intros Hok.
      assert (Hloop : fst (fst (for_each sizes (write_rendition P (create_gradient_icon P)) m))
                      = inr tt).
      { destruct (for_each sizes _ m) as [[[e|[]] m2] t2]; done. }
      apply for_each_renditions_ok_inv in Hloop; [|apply png_paths_NoDup].
      apply stage_ready_intro; [by rewrite E1|by rewrite E2|].
      exact Hloop.
    + set (m2 := set_fs (insert iconset_dir Dir) m).
      rewrite (bind_inr _ _ m2 m2 tt
                 [EvPrint "✨ Creating icon set with all required sizes..."]) by done.
      intros Hok.
      assert (Hloop : fst (fst (for_each sizes (write_rendition P (create_gradient_icon P)) m2))
                      = inr tt).
      { destruct (for_each sizes _ m2) as [[[e|[]] m3] t3]; done. }
      apply for_each_renditions_ok_inv in Hloop; [|apply png_paths_NoDup].
      apply stage_ready_intro; [by rewrite E1|by rewrite E2|].
      eapply Forall_impl; [exact Hloop|]. intros e He.
      unfold m2 in He. simpl in He.
      rewrite lookup_insert_ne in He by discriminate. exact He.
  - set (m1 := set_fs (insert icon_dir Dir) m).
    unfold bind at 1. rewrite Path_mkdir_exist_ok.
    change (stat m1 (parent iconset_dir)) with (fs m1 !! icon_dir).
    assert (Hd : fs m1 !! icon_dir = Some Dir) by (unfold m1; simpl; by rewrite lookup_insert_eq).
    rewrite Hd.
    change (stat m1 iconset_dir) with (fs m1 !! iconset_dir).
    assert (Hsame : fs m1 !! iconset_dir = fs m !! iconset_dir)
      by (unfold m1; simpl; by rewrite lookup_insert_ne by discriminate).
    rewrite Hsame.
    destruct (fs m !! iconset_dir) as [[|c]|] eqn:E2; [| done |].
    + rewrite (bind_inr _ _ m1 m1 tt
                 [EvPrint "✨ Creating icon set with all required sizes..."]) by done.
      intros Hok.
      assert (Hloop : fst (fst (for_each sizes (write_rendition P (create_gradient_icon P)) m1))
                      = inr tt).
      { destruct (for_each sizes _ m1) as [[[e|[]] m3] t3]; done. }
      apply for_each_renditions_ok_inv in Hloop; [|apply png_paths_NoDup].
      apply stage_ready_intro; [by rewrite E1|by rewrite E2|].
      eapply Forall_impl; [exact Hloop|]. intros e He.
      unfold m1 in He. simpl in He.
      rewrite lookup_insert_ne in He by discriminate. exact He.
    + set (m2 := set_fs (insert iconset_dir Dir) m1).
      rewrite (bind_inr _ _ m2 m2 tt
                 [EvPrint "✨ Creating icon set with all required sizes..."]) by done.
      intros Hok.
      assert (Hloop : fst (fst (for_each sizes (write_rendition P (create_gradient_icon P)) m2))
                      = inr tt).
      { destruct (for_each sizes _ m2) as [[[e|[]] m3] t3]; done. }
      apply for_each_renditions_ok_inv in Hloop; [|apply png_paths_NoDup].
      apply stage_ready_intro; [by rewrite E1|by rewrite E2|].
      eapply Forall_impl; [exact Hloop|]. intros e He.
      unfold m2, m1 in He. simpl in He.
      rewrite !lookup_insert_ne in He by discriminate. exact He.
Qed.

(** Property X7. [exist_ok=True] does not cover a regular file: when
    [icon_temp] names a file, the first [mkdir] raises [FileExistsError],
    which nothing catches; the process ends there, having printed two lines,
    changed nothing on disk and started no process. *)
Theorem icon_temp_is_a_file (P : Pillow) (os : OS) (m : Machine) (c : content) :
  pillow_installed m = true ->
  fs m !! icon_dir = Some (File c) ->
  run_process P os m
  = (Uncaught FileExistsError, m,
     [ EvPrint "🎨 Creating Momentum app icon...";
       EvPrint "📐 Generating base icon (1024x1024)...";
       EvMkdir icon_dir ]).
Proof.
  intros Hpil Hfile. rewrite run_process_installed by done.
  rewrite create_iconset_split. unfold stage_iconset, print.
  rewrite (bind_inr _ _ m m tt [EvPrint "🎨 Creating Momentum app icon..."]) by done.
  rewrite (bind_inr _ _ m m tt [EvPrint "📐 Generating base icon (1024x1024)..."]) by done.
  rewrite (bind_inl _ _ m m FileExistsError [EvMkdir icon_dir]); [reflexivity|].
  rewrite Path_mkdir_exist_ok. change (stat m (parent icon_dir)) with (Some Dir).
  change (stat m icon_dir) with (fs m !! icon_dir). by rewrite Hfile.
Qed.

Lemma for_each_renditions_blocked (P : Pillow) (l1 l2 : list (Z * string))
    (entry : Z * string) (m : Machine) :
  fs m !! iconset_dir = Some Dir ->
  Forall (fun e : Z * string => fs m !! png_path (snd e) <> Some Dir) l1 ->
  fs m !! png_path (snd entry) = Some Dir ->
  for_each (l1 ++ entry :: l2) (write_rendition P (create_gradient_icon P)) m
  = (inl IsADirectoryError, foldl (written P) m l1,
     concat (map (rendition_events P) (l1 ++ [entry]))).
Proof.
  revert m. induction l1 as [|e l1 IH]; intros m Hdir Hl1 Hblock.
  - cbn [app for_each foldl]. unfold bind at 1.
    rewrite write_rendition_cases, Image_save_cases.
    destruct entry as [n name]. cbn [rendition fst snd] in *.
    rewrite parent_png_path.
    change (stat m iconset_dir) with (fs m !! iconset_dir). rewrite Hdir.
    change (stat m (png_path name)) with (fs m !! png_path name). rewrite Hblock.
    cbn [map concat app]. by rewrite app_nil_r.
  - apply Forall_cons in Hl1 as [He Hl1].
    cbn [app for_each foldl]. unfold bind at 1.
    rewrite write_rendition_cases, Image_save_cases.
    destruct e as [n name]. cbn [rendition fst snd] in *.
    rewrite parent_png_path.
    change (stat m iconset_dir) with (fs m !! iconset_dir). rewrite Hdir.
    change (stat m (png_path name)) with (fs m !! png_path name).
    assert (Hne : png_path name <> png_path (snd entry)) by congruence.
    assert (Hgo : for_each (l1 ++ entry :: l2) (write_rendition P (create_gradient_icon P))
                    (written P m (n, name))
                  = (inl IsADirectoryError, foldl (written P) (written P m (n, name)) l1,
                     concat (map (rendition_events P) (l1 ++ [entry])))).
    { apply IH.
      - simpl. rewrite lookup_insert_ne; [done|discriminate].
      - eapply Forall_impl; [exact Hl1|]. intros e' He'. simpl.
        destruct (decide (png_path name = png_path e'.2)) as [<-|Hd].
        + by rewrite lookup_insert_eq.
        + by rewrite lookup_insert_ne.
      - simpl. by rewrite lookup_insert_ne. }
    destruct (fs m !! png_path name) as [[|c]|] eqn:E; [done| |];
      (change (set_fs (insert (png_path name)
                 (File (Png (resize P (create_gradient_icon P) (n, n))))) m)
         with (written P m (n, name)); rewrite Hgo; reflexivity).
Qed.

(** Property X8. Staging is not all-or-nothing. When the rendition path of
    some table entry is a directory, the save of that entry raises
    [IsADirectoryError] uncaught: the renditions of the entries before it
    are on disk, those of the entry and of the ones after it are as they
    were, the packaging tool is never started and nothing is removed. *)
Theorem rendition_blocked_by_directory (P : Pillow) (os : OS) (m : Machine)
    (l1 l2 : list (Z * string)) (entry : Z * string) :
  pillow_installed m = true ->
  leftover_tree m ->
  sizes = l1 ++ entry :: l2 ->
  Forall (fun e : Z * string => fs m !! png_path (snd e) <> Some Dir) l1 ->
  fs m !! png_path (snd entry) = Some Dir ->
  let '(term, m', t) := run_process P os m in
  term = Uncaught IsADirectoryError
  /\ m' = foldl (written P) m l1
  /\ saved t = map (rendition P) (l1 ++ [entry])
  /\ spawned t = []
  /\ removed t = []
  /\ Forall (fun e : Z * string =>
               fs m' !! png_path (snd e) = Some (File (Png (snd (rendition P e))))) l1
  /\ Forall (fun e : Z * string => fs m' !! png_path (snd e) = fs m !! png_path (snd e))
       (entry :: l2).
Proof.
  intros Hpil Hleft Hsplit Hl1 Hblock.
  pose proof png_paths_NoDup as Hnd. rewrite Hsplit in Hnd.
  rewrite map_app in Hnd. apply NoDup_app in Hnd as (Hnd1 & Hdisj & Hnd2).
  rewrite run_process_installed by done. rewrite create_iconset_split.
  rewrite stage_iconset_leftover by done. rewrite Hsplit.
  rewrite (for_each_renditions_blocked P l1 l2 entry m (proj2 Hleft) Hl1 Hblock).
  split; [reflexivity|]. split; [reflexivity|].
  assert (Hsaved : forall l, saved (concat (map (rendition_events P) l)) = map (rendition P) l).
  { induction l as [|e l IHl]; [done|]. cbn [map concat]. unfold saved in *.
    rewrite omap_app, IHl. reflexivity. }
  assert (Hspawned : forall l, spawned (concat (map (rendition_events P) l)) = []).
  { induction l as [|e l IHl]; [done|]. cbn [map concat]. unfold spawned in *.
    rewrite omap_app, IHl. reflexivity. }
  assert (Hremoved : forall l, removed (concat (map (rendition_events P) l)) = []).
  { induction l as [|e l IHl]; [done|]. cbn [map concat]. unfold removed in *.
    rewrite omap_app, IHl. reflexivity. }
  split; [|split; [|split; [|split]]].
  - unfold saved in *. rewrite omap_app. cbn [omap app]. apply Hsaved.
  - unfold spawned in *. rewrite omap_app. cbn [omap app]. apply Hspawned.
  - unfold removed in *. rewrite omap_app. cbn [omap app]. apply Hremoved.
  - apply Forall_forall. intros e He. by apply foldl_written_lookup.
  - apply Forall_forall. intros e He. apply foldl_written_lookup_other.
    intros Hin. apply (Hdisj _ Hin). apply list_elem_of_fmap. by exists e.
Qed.

(** Property X9. Every run ends with exit status 0 or 1. Status 0 means
    the packaging tool was started and the staging tree has been removed, no
    path at or below [icon_temp] being left; an exit through [sys.exit(1)]
    means the tool was started and nothing was removed; an uncaught exception
    is [ImportError], pip's [CalledProcessError] or an OS error. *)
Theorem exit_status_classified (P : Pillow) (os : OS) (m : Machine) :
  let '(term, m', t) := run_process P os m in
  (exit_status term = 0 \/ exit_status term = 1)
  /\ match term with
     | Exit status =>
         (status = 0 /\ removed t = [icon_dir] /\ iconutil_argv ∈ spawned t
          /\ forall p : path, icon_dir `prefix_of` p -> fs m' !! p = None)
         \/ (status = 1 /\ removed t = [] /\ iconutil_argv ∈ spawned t)
     | Uncaught e =>
         e = ImportError
         \/ (exists status : Z, status <> 0 /\ e = CalledProcessError status (pip_argv os))
         \/ is_os_error e = true
     end.
Proof.
  rewrite run_process_split, import_guard_cases.
  assert (Hmain : forall (m1 : Machine) (t1 : list event),
            removed t1 = [] ->
            let '(term, m', t) :=
              match create_iconset P os m1 with
              | (inl (SystemExit code), m2, t2) => (Exit code, m2, t1 ++ t2)
              | (inl e, m2, t2) => (Uncaught e, m2, t1 ++ t2)
              | (inr b, m2, t2) => (Exit (if b : bool then 0 else 1), m2, t1 ++ t2 ++ [])
              end in
            (exit_status term = 0 \/ exit_status term = 1)
            /\ match term with
               | Exit status =>
                   (status = 0 /\ removed t = [icon_dir] /\ iconutil_argv ∈ spawned t
                    /\ forall p : path, icon_dir `prefix_of` p -> fs m' !! p = None)
                   \/ (status = 1 /\ removed t = [] /\ iconutil_argv ∈ spawned t)
               | Uncaught e =>
                   e = ImportError
                   \/ (exists status : Z,
                         status <> 0 /\ e = CalledProcessError status (pip_argv os))
                   \/ is_os_error e = true
               end).
  { intros m1 t1 Ht1. rewrite create_iconset_split.
    pose proof (stage_iconset_post P m1) as Hs.
    destruct (stage_iconset P m1) as [[r1 ms] ts]. destruct Hs as (_ & _ & Hr).
    destruct r1 as [e|[]].
    { destruct e; try done; simpl; auto. }
    subst ts. rewrite package_iconset_cases.
    destruct (spawn os iconutil_argv ms) as [[status m2]|]; [|simpl; auto].
    destruct (decide (status = 0)) as [->|Hne].
    - rewrite finish_iconset_cases.
      destruct (fs m2 !! icon_dir) as [[|c]|]; [|simpl; auto..].
      split; [by left|]. left. split; [done|].
      unfold removed, spawned in *. rewrite !omap_app, Ht1.
      split; [reflexivity|]. split.
      + assert (Hin : iconutil_argv ∈ spawned [EvPrint "📦 Creating .icns file...";
                                                 EvSpawn iconutil_argv]) by (simpl; left).
        unfold spawned in Hin. rewrite !elem_of_app. auto 10.
      + intros p Hp. by apply rmtree_lookup_inside.
    - split; [by right|]. right. split; [done|].
      unfold removed, spawned in *. rewrite !omap_app, Ht1.
      split; [reflexivity|].
      assert (Hin : iconutil_argv ∈ spawned
                [EvPrint "📦 Creating .icns file..."; EvSpawn iconutil_argv;
                 EvPrint ("❌ Failed to create .icns file: "
                          +:+ str_exn os (CalledProcessError status iconutil_argv))])
        by (simpl; left).
      unfold spawned in Hin. rewrite !elem_of_app. auto 10. }
  destruct (pillow_installed m).
  { exact (Hmain m [] eq_refl). }
  destruct (spawn os (pip_argv os) m) as [[status m1]|]; [|simpl; auto].
  destruct (decide (status = 0)) as [->|Hne].
  - destruct (pillow_installed m1).
    + exact (Hmain m1 [EvPrint "⚠️  Pillow not found. Installing..."; EvSpawn (pip_argv os)]
               eq_refl).
    + simpl. auto.
  - simpl. split; [by right|]. right. left. by exists status.
Qed.

Lemma Machine_eq (m1 m2 : Machine) :
  fs m1 = fs m2 -> pillow_installed m1 = pillow_installed m2 -> m1 = m2.
Proof. destruct m1, m2. simpl. by intros -> ->. Qed.

Lemma staged_ready (P : Pillow) (m : Machine) :
  stage_ready m = true -> stage_ready (staged P m) = true.
Proof.
  intros Hready. destruct (staged_dirs P m Hready) as [H1 H2].
  apply stage_ready_intro; [by rewrite H1|by rewrite H2|].
  eapply Forall_impl; [apply (staged_files P m)|].
  intros e He. by rewrite He.
Qed.

(** Property X10. Staging a second time on the machine a first staging
    left (as after a failed packaging step) returns normally, issues the same
    calls and leaves the machine exactly as it found it. *)
Theorem staging_again_changes_nothing (P : Pillow) (m : Machine) :
  stage_ready m = true ->
  stage_iconset P (after_staging P m)
  = (inr tt, after_staging P m, stage_trace P).
Proof.
  intros Hready. rewrite after_staging_ready by done.
  pose proof (staged_ready P m Hready) as Hready2.
  rewrite stage_iconset_ready by done. f_equal. f_equal.
  apply Machine_eq; [|by rewrite !staged_pillow].
  apply map_eq. intros p.
  destruct (staged_dirs P m Hready) as [H1 H2].
  destruct (staged_dirs P (staged P m) Hready2) as [H1' H2'].
  destruct (decide (p ∈ stage_targets)) as [Hin|Hout].
  - unfold stage_targets in Hin. rewrite !elem_of_cons in Hin.
    destruct Hin as [->|[->|Hin]];
      [etrans; [exact H1'|symmetry; exact H1]|etrans; [exact H2'|symmetry; exact H2]|].
    apply list_elem_of_fmap in Hin as (e & -> & He).
    pose proof (staged_files P m) as Hf. pose proof (staged_files P (staged P m)) as Hf'.
    rewrite Forall_forall in Hf, Hf'.
    etrans; [exact (Hf' e He)|symmetry; exact (Hf e He)].
  - exact (staged_other P (staged P m) p Hout).
Qed.

(** Property X11. When Pillow is missing and pip installs it, the run
    continues exactly as a run started with Pillow on the machine pip left,
    with the notice and the pip call in front of its log. *)
Theorem missing_pillow_then_as_installed (P : Pillow) (os : OS) (m m1 : Machine) :
  pillow_installed m = false ->
  spawn os (pip_argv os) m = Some (0, m1) ->
  pillow_installed m1 = true ->
  run_process P os m
  = let '(term, m', t) := run_process P os m1 in
    (term, m',
     [EvPrint "⚠️  Pillow not found. Installing..."; EvSpawn (pip_argv os)] ++ t).
Proof.
  intros Hpil Hpip Hm1. rewrite !run_process_split.
  rewrite (import_guard_installed os m1 Hm1).
  rewrite import_guard_cases, Hpil, Hpip. rewrite decide_True by done. rewrite Hm1.
  destruct (create_iconset P os m1) as [[[e|b] m2] t2]; [by destruct e|reflexivity].
Qed.

(** ** The further properties at work on sample machines *)

Lemma gradient_binary64_exact_witness :
  0 <= 1023 < icon_size
  /\ forallb fits_binary64
       (channel_steps 16 (6 - 16) icon_size 1023
          ++ channel_steps 185 (182 - 185) icon_size 1023
          ++ channel_steps 129 (212 - 129) icon_size 1023) = true.
Proof.
  assert (H : 0 <= 1023 < icon_size) by (unfold icon_size; lia).
  split; [exact H|]. exact (gradient_binary64_exact 1023 H).
Defined.

Lemma scanline_color_range_witness :
  0 <= 1023 < icon_size
  /\ (let '(r, g, b) := scanline_color icon_size 1023 in
      6 <= r <= 16 /\ 182 <= g <= 185 /\ 129 <= b <= 211).
Proof.
  assert (H : 0 <= 1023 < icon_size) by (unfold icon_size; lia).
  split; [exact H|]. exact (scanline_color_range 1023 H).
Defined.

Lemma scanline_color_monotone_witness :
  0 <= 0 /\ 0 <= 1023 /\ 1023 < icon_size
  /\ (let '(r1, g1, b1) := scanline_color icon_size 0 in
      let '(r2, g2, b2) := scanline_color icon_size 1023 in
      r2 <= r1 /\ g2 <= g1 /\ b1 <= b2).
Proof.
  assert (H1 : 0 <= 0) by lia.
  assert (H2 : 0 <= 1023) by lia.
  assert (H3 : 1023 < icon_size) by (unfold icon_size; lia).
  split; [exact H1|]. split; [exact H2|]. split; [exact H3|].
  exact (scanline_color_monotone 0 1023 H1 H2 H3).
Defined.

Lemma gradient_background_shape_witness :
  0 <= 1024
  /\ length (im_rows (gradient_background 1024)) = 1024%nat
  /\ getpixel (gradient_background 1024) 1024 0 = None.
Proof.
  assert (H : 0 <= 1024) by lia.
  split; [exact H|].
  destruct (gradient_background_shape 1024 1024 0 H) as (_ & Hlen & _ & Hpx).
  split; [exact Hlen|]. rewrite Hpx. apply decide_False. lia.
Defined.

Lemma staging_only_grows_witness :
  spawned (snd (stage_iconset Samples.pillow Samples.blocked)) = []
  /\ removed (snd (stage_iconset Samples.pillow Samples.blocked)) = [].
Proof.
  pose proof (staging_only_grows Samples.pillow Samples.blocked) as H.
  destruct (stage_iconset Samples.pillow Samples.blocked) as [[r m'] t].
  destruct H as (_ & _ & _ & Hs & Hr & _). split; [exact Hs|exact Hr].
Defined.

Lemma staging_returns_iff_ready_witness :
  stage_ready (Samples.fresh true) = true
  /\ fst (fst (stage_iconset Samples.pillow (Samples.fresh true))) = inr tt.
Proof.
  assert (H : stage_ready (Samples.fresh true) = true) by (vm_compute; reflexivity).
  split; [exact H|].
  exact (proj2 (staging_returns_iff_ready Samples.pillow (Samples.fresh true)) H).
Defined.

Lemma icon_temp_is_a_file_witness :
  pillow_installed Samples.blocked = true
  /\ fs Samples.blocked !! icon_dir = Some (File (Bytes "not a directory"))
  /\ run_process Samples.pillow Samples.os_working Samples.blocked
     = (Uncaught FileExistsError, Samples.blocked,
        [ EvPrint "🎨 Creating Momentum app icon...";
          EvPrint "📐 Generating base icon (1024x1024)...";
          EvMkdir icon_dir ]).
Proof.
  assert (H : fs Samples.blocked !! icon_dir = Some (File (Bytes "not a directory")))
    by (vm_compute; reflexivity).
  split; [reflexivity|]. split; [exact H|].
  exact (icon_temp_is_a_file Samples.pillow Samples.os_working Samples.blocked _ eq_refl H).
Defined.

Lemma rendition_blocked_by_directory_witness :
  pillow_installed Samples.obstructed = true
  /\ leftover_tree Samples.obstructed
  /\ sizes = [(16, "16x16"); (32, "16x16@2x")] ++ (32, "32x32") :: skipn 3 sizes
  /\ Forall (fun e : Z * string => fs Samples.obstructed !! png_path (snd e) <> Some Dir)
       [(16, "16x16"); (32, "16x16@2x")]
  /\ fs Samples.obstructed !! png_path "32x32" = Some Dir
  /\ fst (fst (run_process Samples.pillow Samples.os_working Samples.obstructed))
     = Uncaught IsADirectoryError.
Proof.
  assert (H1 : leftover_tree Samples.obstructed) by (split; vm_compute; reflexivity).
  assert (H2 : sizes = [(16, "16x16"); (32, "16x16@2x")] ++ (32, "32x32") :: skipn 3 sizes)
    by reflexivity.
  assert (H3 : Forall (fun e : Z * string =>
                         fs Samples.obstructed !! png_path (snd e) <> Some Dir)
                 [(16, "16x16"); (32, "16x16@2x")]).
  { repeat constructor; intros H; vm_compute in H; discriminate. }
  assert (H4 : fs Samples.obstructed !! png_path (snd (32, "32x32")) = Some Dir)
    by (vm_compute; reflexivity).
  split; [reflexivity|]. split; [exact H1|]. split; [exact H2|]. split; [exact H3|].
  split; [exact H4|].
  pose proof (rendition_blocked_by_directory Samples.pillow Samples.os_working
                Samples.obstructed _ _ _ eq_refl H1 H2 H3 H4) as H.
  destruct (run_process Samples.pillow Samples.os_working Samples.obstructed)
    as [[term m'] t].
  exact (proj1 H).
Defined.

Lemma exit_status_classified_witness :
  exit_status (fst (fst (run_process Samples.pillow Samples.os_bare Samples.blocked))) = 0
  \/ exit_status (fst (fst (run_process Samples.pillow Samples.os_bare Samples.blocked))) = 1.
Proof.
  pose proof (exit_status_classified Samples.pillow Samples.os_bare Samples.blocked) as H.
  destruct (run_process Samples.pillow Samples.os_bare Samples.blocked) as [[term m'] t].
  exact (proj1 H).
Defined.

Lemma staging_again_changes_nothing_witness :
  stage_ready (Samples.fresh true) = true
  /\ stage_iconset Samples.pillow (after_staging Samples.pillow (Samples.fresh true))
     = (inr tt, after_staging Samples.pillow (Samples.fresh true),
        stage_trace Samples.pillow).
Proof.
  assert (H : stage_ready (Samples.fresh true) = true) by (vm_compute; reflexivity).
  split; [exact H|].
  exact (staging_again_changes_nothing Samples.pillow (Samples.fresh true) H).
Defined.

Lemma missing_pillow_then_as_installed_witness :
  pillow_installed (Samples.fresh false) = false
  /\ spawn Samples.os_working (pip_argv Samples.os_working) (Samples.fresh false)
     = Some (0, Samples.fresh true)
  /\ pillow_installed (Samples.fresh true) = true
  /\ run_process Samples.pillow Samples.os_working (Samples.fresh false)
     = (let '(term, m', t) :=
          run_process Samples.pillow Samples.os_working (Samples.fresh true) in
        (term, m',
         [EvPrint "⚠️  Pillow not found. Installing...";
          EvSpawn (pip_argv Samples.os_working)] ++ t)).
Proof.
  split; [reflexivity|]. split; [reflexivity|]. split; [reflexivity|].
  exact (missing_pillow_then_as_installed Samples.pillow Samples.os_working
           (Samples.fresh false) (Samples.fresh true) eq_refl eq_refl eq_refl).
Defined.
